(** * viking.py: the OpenViking command-line wrapper

    A shallow embedding of [scripts/viking.py].  The script is glue code
    around an external indexing service: every handler acquires a client,
    issues a few calls, prints, and closes the client.  The embedding keeps
    that shape.  A handler is a computation in a small monad that threads
    the state of the external service, records every observable action in
    a trace (lines printed, file-system queries, client calls together with
    what they answered) and ends in one of three ways: it returns, it
    raises a Python exception, or it leaves through [sys.exit]. *)

From stdpp Require Import base option list strings gmap sorting pretty.
From Stdlib Require Import ZArith String Ascii Lia OrderedTypeEx.

Local Open Scope string_scope.
Local Open Scope list_scope.

(** ** Python strings

    A [str] is modelled by the [string] of the bytes of its UTF-8
    encoding, which is also how the non-ASCII literals of the script
    appear.  A character is a byte that begins it and the continuation
    bytes (of the form 10xxxxxx) that follow; the operations that count or
    classify characters work on these. *)

Module PyStr.

Definition newline : ascii := "010"%char.
Definition space : ascii := " "%char.

(** The literal "\n". *)
Definition nl : string := String newline "".

(** The string of the given bytes. *)
Definition of_bytes (l : list nat) : string :=
  string_of_list_ascii (map ascii_of_nat l).

(** Whether a byte continues the character begun before it. *)
Definition is_continuation (b : ascii) : bool :=
  let n := nat_of_ascii b in (128 <=? n)%nat && (n <? 192)%nat.

(** [len(s)]: the number of characters, one for each byte that is not a
    continuation byte. *)
Fixpoint len (s : string) : nat :=
  match s with
  | "" => 0
  | String b s' => (if is_continuation b then 0 else 1) + len s'
  end.

(** [s[:n]]: the first [n] characters, each with its continuation
    bytes. *)
Fixpoint slice_to (n : nat) (s : string) : string :=
  match s with
  | "" => ""
  | String b s' =>
      if is_continuation b then String b (slice_to n s')
      else match n with
           | 0 => ""
           | S n' => String b (slice_to n' s')
           end
  end.

(** [s.replace(old, new)] for [old] and [new] of one ASCII character: such
    a byte never occurs inside another character. *)
Fixpoint replace (old new : ascii) (s : string) : string :=
  match s with
  | "" => ""
  | String c s' =>
      String (if Ascii.eqb c old then new else c) (replace old new s')
  end.

Definition byte_is (b : ascii) (n : nat) : bool := Nat.eqb (nat_of_ascii b) n.

(** The white space of [str.isspace] and [str.strip], by the length of
    the encoding.  One byte: U+0009..U+000D, U+001C..U+001F and the
    space. *)
Definition space1 (b1 : ascii) : bool :=
  let n := nat_of_ascii b1 in
  ((9 <=? n)%nat && (n <=? 13)%nat) || ((28 <=? n)%nat && (n <=? 32)%nat).

(** Two bytes: U+0085 (C2 85) and U+00A0 (C2 A0). *)
Definition space2 (b1 b2 : ascii) : bool :=
  byte_is b1 194 && (byte_is b2 133 || byte_is b2 160).

(** Three bytes: U+1680 (E1 9A 80); U+2000..U+200A, U+2028, U+2029 and
    U+202F (E2 80 80..8A, A8, A9, AF); U+205F (E2 81 9F); U+3000
    (E3 80 80). *)
Definition space3 (b1 b2 b3 : ascii) : bool :=
  let n3 := nat_of_ascii b3 in
  (byte_is b1 225 && byte_is b2 154 && byte_is b3 128)
  || (byte_is b1 226 && byte_is b2 128
      && (((128 <=? n3)%nat && (n3 <=? 138)%nat)
          || byte_is b3 168 || byte_is b3 169 || byte_is b3 175))
  || (byte_is b1 226 && byte_is b2 129 && byte_is b3 159)
  || (byte_is b1 227 && byte_is b2 128 && byte_is b3 128).

(** Whether [ch] is one white-space character: [ch.isspace()] for a
    string [ch] of length 1. *)
Definition space_char (ch : string) : bool :=
  match ch with
  | String b1 "" => space1 b1
  | String b1 (String b2 "") => space2 b1 b2
  | String b1 (String b2 (String b3 "")) => space3 b1 b2 b3
  | _ => false
  end.

(** [s.lstrip()]: the white-space characters that [s] begins with are
    dropped, one after the other. *)
Fixpoint lstrip (s : string) : string :=
  match s with
  | "" => ""
  | String b1 s1 =>
      if space1 b1 then lstrip s1
      else
        match s1 with
        | "" => s
        | String b2 s2 =>
            if space2 b1 b2 then lstrip s2
            else
              match s2 with
              | "" => s
              | String b3 s3 => if space3 b1 b2 b3 then lstrip s3 else s
              end
        end
  end.

(** A string of white-space characters only: [s.strip() == ""]. *)
Definition blank (s : string) : bool :=
  match lstrip s with
  | "" => true
  | _ => false
  end.

(** [s.rstrip()]: the string is cut where what remains is white space
    only. *)
Fixpoint rstrip (s : string) : string :=
  match s with
  | "" => ""
  | String b s' => if blank s then "" else String b (rstrip s')
  end.

(** [s.strip()] *)
Definition strip (s : string) : string := rstrip (lstrip s).

(** [s.startswith(p)] *)
Definition startswith (p s : string) : bool := String.prefix p s.

(** [s.rstrip("/")] *)
Fixpoint rstrip_char (ch : ascii) (s : string) : string :=
  match s with
  | "" => ""
  | String c s' =>
      match rstrip_char ch s' with
      | "" => if Ascii.eqb c ch then "" else String c ""
      | r => String c r
      end
  end.

(** [s.endswith("/")] *)
Fixpoint endswith_char (ch : ascii) (s : string) : bool :=
  match s with
  | "" => false
  | String c "" => Ascii.eqb c ch
  | String _ s' => endswith_char ch s'
  end.

(** [ch in s] *)
Fixpoint contains (ch : ascii) (s : string) : bool :=
  match s with
  | "" => false
  | String c s' => Ascii.eqb c ch || contains ch s'
  end.

(** [s[i:]] *)
Fixpoint slice_from (i : nat) (s : string) : string :=
  match i, s with
  | 0, _ => s
  | S _, "" => ""
  | S i', String _ s' => slice_from i' s'
  end.

End PyStr.

(** ** Exceptions and the ways a computation ends *)

(** An instance of Python's [Exception]: its class name and [str(e)]. *)
Record exn := Exn { exn_class : string; exn_msg : string }.

(** What a call into the library answers: a value, or a raised exception. *)
Inductive result (A : Type) : Type :=
| Ok (a : A)
| Err (e : exn).
Arguments Ok {A} a.
Arguments Err {A} e.

(** How a piece of the script ends.  [Exit] is [SystemExit]: it is not an
    [Exception], so [except Exception] lets it through, while [finally]
    blocks still run. *)
Inductive outcome (A : Type) : Type :=
| Ret (a : A)
| Raise (e : exn)
| Exit (code : Z).
Arguments Ret {A} a.
Arguments Raise {A} e.
Arguments Exit {A} code.

(** ** Values handed over by the service *)

(** The dict answered by [add_resource]; a field is [None] when the key is
    absent, which is what [result.get(key, default)] tests. *)
Record add_result := AddResult {
  ar_status : option string;
  ar_errors : option (list string);
  ar_root_uri : option string;
}.

(** One element of [results.resources].  The score is a float; it is kept
    as the text that the format spec [.4f] renders for it. *)
Record resource := Resource {
  r_uri : string;
  r_score_4f : string;
}.

(** One dict of the list answered by [ls]. *)
Record entry := Entry {
  e_name : option string;
  e_isDir : option bool;
  e_size : option Z;
  e_uri : option string;
}.

(** A decoded JSON document, as [json.load] builds it. *)
#[warnings="-register-all"]
Inductive json : Type :=
| JNull
| JBool (b : bool)
| JInt (n : Z)
| JFloat (repr : string)
| JStr (s : string)
| JList (l : list json)
| JDict (kvs : list (string * json)).

(** ** The trace *)

Inductive event : Type :=
| Stdout (text : string)
| Stderr (text : string)
| PathExists (path : string) (answer : bool)
| Abspath (path : string) (answer : string)
| Glob (pattern : string) (matches : list string)
| LoadJson (path : string) (answer : result json)
| Construct (data_dir : string) (answer : result unit)
| Initialize (answer : result unit)
| AddResource (path : string) (answer : result add_result)
| WaitProcessed (answer : result unit)
| Find (query : string) (limit : Z) (answer : result (list resource))
| Read (uri : string) (answer : result (option string))
| Ls (uri : string) (answer : result (list entry))
| Abstract (uri : string) (answer : result (option string))
| Overview (uri : string) (answer : result (option string))
| Close (answer : result unit).

Definition trace := list event.

(** ** The external service and the operating system *)

(** [openviking.SyncOpenViking] as a state machine over a state [S] that
    stands for the client object and the store behind it.  Every method
    may answer or raise, and may change the state. *)
Record service (S : Type) : Type := Service {
  sv_construct : S → string → S * result unit;
  sv_initialize : S → S * result unit;
  sv_add_resource : S → string → S * result add_result;
  sv_wait_processed : S → S * result unit;
  sv_find : S → string → Z → S * result (list resource);
  sv_read : S → string → S * result (option string);
  sv_ls : S → string → S * result (list entry);
  sv_abstract : S → string → S * result (option string);
  sv_overview : S → string → S * result (option string);
  sv_close : S → S * result unit;
}.
Arguments sv_construct {S} _ _ _.
Arguments sv_initialize {S} _ _.
Arguments sv_add_resource {S} _ _ _.
Arguments sv_wait_processed {S} _ _.
Arguments sv_find {S} _ _ _ _.
Arguments sv_read {S} _ _ _.
Arguments sv_ls {S} _ _ _.
Arguments sv_abstract {S} _ _ _.
Arguments sv_overview {S} _ _ _.
Arguments sv_close {S} _ _.

(** What the script asks of the interpreter and the operating system. *)
Record world : Type := World {
  (** [os.environ] *)
  environ : gmap string string;
  (** the home directory in the password database, when there is one *)
  pw_dir : option string;
  (** the home directory of a named user in the password database *)
  pw_nam : string → option string;
  (** [os.path.exists] *)
  path_exists : string → bool;
  (** [os.path.abspath] *)
  abspath : string → string;
  (** [glob.glob(pattern, recursive=True)] *)
  glob : string → list string;
  (** [import openviking]: [None] is ImportError, [Some None] a module
      without [__version__], [Some (Some v)] a module of version [v] *)
  openviking : option (option string);
  (** [json.load(open(path))] *)
  load_json : string → result json;
  (** [str(v)] of a decoded JSON value *)
  str_of_json : json → string;
  (** the text of [parser.print_help()] *)
  help_text : string;
}.

(** ** [os.path] *)

Module OsPath.

(** One step of [posixpath.join]: an absolute component replaces what came
    before it, otherwise it is appended after exactly one separator. *)
Definition join_step (path b : string) : string :=
  if PyStr.startswith "/" b then b
  else if String.eqb path "" || PyStr.endswith_char "/" path then path +:+ b
  else path +:+ "/" +:+ b.

(** [os.path.join(a, *ps)] *)
Definition join (a : string) (ps : list string) : string :=
  foldl join_step a ps.

(** [os.path.expanduser(path)] *)
Definition expanduser (w : world) (path : string) : string :=
  if negb (PyStr.startswith "~" path) then path
  else
    let i := default (String.length path) (String.index 1 "/" path) in
    let userhome :=
      if Nat.eqb i 1 then
        match environ w !! "HOME" with
        | Some h => Some h
        | None => pw_dir w
        end
      else pw_nam w (String.substring 1 (i - 1) path) in
    match userhome with
    | None => path
    | Some h =>
        let r := PyStr.rstrip_char "/" h +:+ PyStr.slice_from i path in
        if String.eqb r "" then "/" else r
    end.

End OsPath.

(** ** The monad of the script *)

(** A computation takes the state of the service and gives the new state,
    the events it produced, in order, and the way it ended. *)
Definition M (S A : Type) : Type := S → S * trace * outcome A.

Definition ret {S A} (a : A) : M S A := λ s, (s, [], Ret a).

Definition bind {S A B} (m : M S A) (k : A → M S B) : M S B := λ s,
  match m s with
  | (s1, t1, Ret a) => let '(s2, t2, o) := k a s1 in (s2, t1 ++ t2, o)
  | (s1, t1, Raise e) => (s1, t1, Raise e)
  | (s1, t1, Exit c) => (s1, t1, Exit c)
  end.

#[global] Instance M_ret {S} : MRet (M S) := λ A, ret.
#[global] Instance M_bind {S} : MBind (M S) := λ A B k m, bind m k.

(** [raise] and [sys.exit(code)] *)
Definition raise {S A} (e : exn) : M S A := λ s, (s, [], Raise e).
Definition sys_exit {S A} (code : Z) : M S A := λ s, (s, [], Exit code).

Definition emit {S} (ev : event) : M S unit := λ s, (s, [ev], Ret ()).

(** [print(text)] and [print(text, file=sys.stderr)] *)
Definition print {S} (text : string) : M S unit := emit (Stdout text).
Definition eprint {S} (text : string) : M S unit := emit (Stderr text).

Definition of_result {A} (r : result A) : outcome A :=
  match r with
  | Ok a => Ret a
  | Err e => Raise e
  end.

(** A call into the library: the state moves, the call and its answer are
    recorded, and an exception of the library is raised in the script. *)
Definition call {S A} (op : S → S * result A) (ev : result A → event)
  : M S A := λ s,
  let '(s', r) := op s in (s', [ev r], of_result r).

(** A query of the operating system: recorded, never raising. *)
Definition query {S A} (a : A) (ev : A → event) : M S A := λ s,
  (s, [ev a], Ret a).

(** [try: body finally: fin].  The [finally] block runs however [body]
    ends; when it ends normally the outcome of [body] stands, otherwise
    its own exception or exit replaces it. *)
Definition try_finally {S A} (body : M S A) (fin : M S unit) : M S A := λ s,
  let '(s1, t1, o1) := body s in
  let '(s2, t2, o2) := fin s1 in
  (s2, t1 ++ t2,
   match o2 with
   | Ret _ => o1
   | Raise e => Raise e
   | Exit c => Exit c
   end).

(** [try: body except Exception as e: handler(e)] *)
Definition try_except {S A} (body : M S A) (handler : exn → M S A)
  : M S A := λ s,
  match body s with
  | (s1, t1, Raise e) =>
      let '(s2, t2, o) := handler e s1 in (s2, t1 ++ t2, o)
  | r => r
  end.

(** [for x in xs: acc = body(x, acc)]: a loop whose local variables are
    threaded through the iterations. *)
Fixpoint for_fold {S A B} (xs : list A) (acc : B) (body : A → B → M S B)
  : M S B :=
  match xs with
  | [] => ret acc
  | x :: rest => bind (body x acc) (λ acc', for_fold rest acc' body)
  end.

(** [for x in xs: body(x)] *)
Definition for_each {S A} (xs : list A) (body : A → M S unit) : M S unit :=
  for_fold xs () (λ x _, body x).

(** [enumerate(xs, start)] *)
Fixpoint enumerate {A} (start : nat) (xs : list A) : list (nat * A) :=
  match xs with
  | [] => []
  | x :: rest => (start, x) :: enumerate (S start) rest
  end.

(** The exit status of the process for the way [main] ended: an uncaught
    exception makes the interpreter leave with status 1. *)
Definition exit_status {A} (o : outcome A) : Z :=
  match o with
  | Ret _ => 0
  | Raise _ => 1
  | Exit code => code
  end.

(** ** Command-line arguments, as [argparse] hands them over *)

Inductive subcommand : Type :=
| Add (file_path : string)
| AddDir (dir_path pattern : string)
| Search (query : string) (limit : Z)
| LsCmd (uri : string)
| AbstractCmd (uri : string)
| OverviewCmd (uri : string)
| ReadCmd (uri : string)
| Info.

Record args := Args {
  data_dir : string;
  command : option subcommand;
}.

(** The handle that [get_client] returns; it remembers the directory it
    was bound to. *)
Record client := Client { client_path : string }.

(** Truth value of a [str] or [None]: only a non-empty string is true. *)
Definition truthy (content : option string) : bool :=
  match content with
  | Some (String _ _) => true
  | _ => false
  end.

(** [x or fallback] for a string [x] *)
Definition str_or (x fallback : string) : string :=
  if String.eqb x "" then fallback else x.

(** ** Decoded JSON, as [cmd_info] reads it *)

Definition type_name (v : json) : string :=
  match v with
  | JNull => "NoneType"
  | JBool _ => "bool"
  | JInt _ => "int"
  | JFloat _ => "float"
  | JStr _ => "str"
  | JList _ => "list"
  | JDict _ => "dict"
  end.

Fixpoint assoc (key : string) (kvs : list (string * json)) : option json :=
  match kvs with
  | [] => None
  | (k, v) :: rest => if String.eqb k key then Some v else assoc key rest
  end.

(** [d.get(key, dflt)]: only a dict has the method. *)
Definition py_get (d : json) (key : string) (dflt : json) : result json :=
  match d with
  | JDict kvs => Ok (default dflt (assoc key kvs))
  | _ =>
      Err (Exn "AttributeError"
             ("'" +:+ type_name d +:+ "' object has no attribute 'get'"))
  end.

(** The order of Python on [str]: by code points, lexicographically. *)
Definition str_le (a b : string) : Prop := Is_true (String.leb a b).

#[global] Instance str_le_dec a b : Decision (str_le a b) :=
  Is_true_dec (String.leb a b).

(** [sorted(xs)] on strings. *)
Definition sorted (xs : list string) : list string := merge_sort str_le xs.

(** ** The script *)

Section Script.

Context {S : Type} (sv : service S) (w : world).

Local Abbreviation prog := (M S).

(** The client's methods. *)
Definition add_resource (c : client) (path : string) : prog add_result :=
  call (λ s, sv_add_resource sv s path) (AddResource path).
Definition wait_processed (c : client) : prog unit :=
  call (sv_wait_processed sv) WaitProcessed.
Definition find (c : client) (query : string) (limit : Z)
  : prog (list resource) :=
  call (λ s, sv_find sv s query limit) (Find query limit).
Definition client_read (c : client) (uri : string) : prog (option string) :=
  call (λ s, sv_read sv s uri) (Read uri).
Definition client_ls (c : client) (uri : string) : prog (list entry) :=
  call (λ s, sv_ls sv s uri) (Ls uri).
Definition client_abstract (c : client) (uri : string)
  : prog (option string) :=
  call (λ s, sv_abstract sv s uri) (Abstract uri).
Definition client_overview (c : client) (uri : string)
  : prog (option string) :=
  call (λ s, sv_overview sv s uri) (Overview uri).
Definition close (c : client) : prog unit :=
  call (sv_close sv) Close.

(** [os.path.exists(path)] *)
Definition os_path_exists (path : string) : prog bool :=
  query (path_exists w path) (PathExists path).

(** [os.environ.get("OPENVIKING_CONFIG_FILE",
                    os.path.expanduser("~/.openviking/ov.conf"))] *)
Definition config_file : string :=
  default (OsPath.expanduser w "~/.openviking/ov.conf")
          (environ w !! "OPENVIKING_CONFIG_FILE").

(** [str(v)] *)
Definition py_str (v : json) : string :=
  match v with
  | JStr s => s
  | _ => str_of_json w v
  end.

Definition get_client (data_dir : string) : prog client :=
  match openviking w with
  | None =>
      eprint "ERROR: openviking not installed. Run: pip install openviking";;
      sys_exit 1
  | Some _ => mret ()
  end;;
  ex ← os_path_exists config_file;
  (if negb ex then
     eprint ("ERROR: Config not found at " +:+ config_file);;
     eprint "Create ~/.openviking/ov.conf or set OPENVIKING_CONFIG_FILE";;
     sys_exit 1
   else mret ());;
  call (λ s, sv_construct sv s data_dir) (Construct data_dir);;
  call (sv_initialize sv) Initialize;;
  mret (Client data_dir).

Definition cmd_add (data_dir file_path : string) : prog unit :=
  client ← get_client data_dir;
  try_finally
    (result ← add_resource client file_path;
     let status := default "unknown" (ar_status result) in
     let errors := default [] (ar_errors result) in
     let root_uri := default "" (ar_root_uri result) in
     if String.eqb status "success" then
       print ("✅ Added: " +:+ file_path);;
       print ("   URI: " +:+ root_uri);;
       print "⏳ Processing embeddings and summaries...";;
       wait_processed client;;
       print "✅ Processing complete."
     else
       print ("❌ Failed: " +:+ file_path);;
       for_each errors (λ e, print ("   Error: " +:+ e)))
    (close client).

(** The body of the loop of [cmd_add_dir]; the two counters are its local
    variables. *)
Definition add_dir_body (client : client) (f : string) (counts : nat * nat)
  : prog (nat * nat) :=
  let '(success_count, fail_count) := counts in
  result ← add_resource client f;
  let status := default "unknown" (ar_status result) in
  let errors := default [] (ar_errors result) in
  if String.eqb status "success" then
    print ("  ✅ " +:+ f);;
    mret (success_count + 1, fail_count)
  else
    let err_msg := match errors with e :: _ => e | [] => "unknown error" end in
    print ("  ❌ " +:+ f +:+ ": " +:+ err_msg);;
    mret (success_count, fail_count + 1).

(** The [try] block of [cmd_add_dir]: the loop over the files, the one
    wait for the processing, and the summary. *)
Definition add_dir_try (client : client) (files : list string) : prog unit :=
  '(success_count, fail_count) ← for_fold files (0, 0) (add_dir_body client);
  print (PyStr.nl +:+ "⏳ Processing " +:+ pretty success_count
         +:+ " files...");;
  wait_processed client;;
  print ("✅ Done. Success: " +:+ pretty success_count
         +:+ ", Failed: " +:+ pretty fail_count).

Definition cmd_add_dir (data_dir dir_path pattern : string) : prog unit :=
  let pattern := str_or pattern "*.md" in
  let search_path := OsPath.join dir_path ["**"; pattern] in
  found ← query (glob w search_path) (Glob search_path);
  let files := sorted found in
  match files with
  | [] =>
      print ("No files matching '" +:+ pattern +:+ "' found in " +:+ dir_path)
  | _ :: _ =>
      client ← get_client data_dir;
      try_finally (add_dir_try client files) (close client)
  end.

(** [content[:150].replace("\n", " ").strip()] *)
Definition preview_of (content : string) : string :=
  PyStr.strip
    (PyStr.replace PyStr.newline PyStr.space (PyStr.slice_to 150 content)).

(** The body of the loop of [cmd_search]. *)
Definition search_body (client : client) (ir : nat * resource) : prog unit :=
  let '(i, r) := ir in
  print ("  " +:+ pretty i +:+ ". " +:+ r_uri r);;
  print ("     Score: " +:+ r_score_4f r);;
  try_except
    (content ← client_read client (r_uri r);
     if truthy content then
       let preview := preview_of (default "" content) in
       print ("     Preview: " +:+ preview +:+ "...")
     else mret ())
    (λ _, mret ());;
  print "".

Definition cmd_search (data_dir query : string) (limit : Z) : prog unit :=
  client ← get_client data_dir;
  try_finally
    (resources ← find client query limit;
     match resources with
     | [] => print ("No results for '" +:+ query +:+ "'")
     | _ :: _ =>
         print ("🔍 Results for '" +:+ query +:+ "':" +:+ PyStr.nl);;
         for_each (enumerate 1 resources) (search_body client)
     end)
    (close client).

(** The body of the loop of [cmd_ls]; a hidden entry takes the [continue]. *)
Definition ls_body (entry : entry) : prog unit :=
  let name := default "?" (e_name entry) in
  let is_dir := default false (e_isDir entry) in
  let size := default 0%Z (e_size entry) in
  let entry_uri := default "" (e_uri entry) in
  if PyStr.startswith "." name then mret ()
  else
    let icon := if is_dir then "📁" else "📄" in
    let size_str := if negb is_dir then " (" +:+ pretty size +:+ "B)" else "" in
    print ("  " +:+ icon +:+ " " +:+ name +:+ size_str);;
    print ("     " +:+ entry_uri).

Definition cmd_ls (data_dir uri : string) : prog unit :=
  let uri := str_or uri "viking://resources" in
  client ← get_client data_dir;
  try_finally
    (entries ← client_ls client uri;
     match entries with
     | [] => print ("Empty: " +:+ uri)
     | _ :: _ =>
         print ("📁 " +:+ uri +:+ PyStr.nl);;
         for_each entries ls_body
     end)
    (close client).

Definition cmd_abstract (data_dir uri : string) : prog unit :=
  client ← get_client data_dir;
  try_finally
    (result ← client_abstract client uri;
     if truthy result then
       print ("📝 Abstract for " +:+ uri +:+ ":" +:+ PyStr.nl);;
       print (default "" result)
     else print ("No abstract available for " +:+ uri))
    (close client).

Definition cmd_overview (data_dir uri : string) : prog unit :=
  client ← get_client data_dir;
  try_finally
    (result ← client_overview client uri;
     if truthy result then
       print ("📖 Overview for " +:+ uri +:+ ":" +:+ PyStr.nl);;
       print (default "" result)
     else print ("No overview available for " +:+ uri))
    (close client).

Definition cmd_read (data_dir uri : string) : prog unit :=
  client ← get_client data_dir;
  try_finally
    (result ← client_read client uri;
     if truthy result then print (default "" result)
     else print ("No content at " +:+ uri))
    (close client).

(** [str(b)] for a bool *)
Definition str_of_bool (b : bool) : string := if b then "True" else "False".

(** [d.get(key, dflt)] inside the script: an AttributeError is raised. *)
Definition get (d : json) (key : string) (dflt : json) : prog json :=
  λ s, (s, [], of_result (py_get d key dflt)).

(** The part of [cmd_info] that reads the configuration file. *)
Definition show_config (config_file : string) : prog unit :=
  try_except
    (cfg ← call (λ s, (s, load_json w config_file)) (LoadJson config_file);
     embedding ← get cfg "embedding" (JDict []);
     emb ← get embedding "dense" (JDict []);
     vlm ← get cfg "vlm" (JDict []);
     model ← get emb "model" (JStr "not set");
     print (PyStr.nl +:+ "  Embedding model: " +:+ py_str model);;
     dimension ← get emb "dimension" (JStr "auto");
     print ("  Embedding dim: " +:+ py_str dimension);;
     vlm_model ← get vlm "model" (JStr "not set");
     print ("  VLM model: " +:+ py_str vlm_model);;
     api_base ← get emb "api_base" (JStr "not set");
     print ("  API base: " +:+ py_str api_base))
    (λ e, print (PyStr.nl +:+ "  Config parse error: " +:+ exn_msg e)).

Definition cmd_info (data_dir : string) : prog unit :=
  let config_file := config_file in
  print ("OpenViking Status" +:+ PyStr.nl);;
  print ("  Config: " +:+ config_file);;
  config_exists ← os_path_exists config_file;
  print ("  Config exists: " +:+ str_of_bool config_exists);;
  data_abs ← query (abspath w data_dir) (Abspath data_dir);
  print ("  Data dir: " +:+ data_abs);;
  data_exists ← os_path_exists data_dir;
  print ("  Data exists: " +:+ str_of_bool data_exists);;
  config_exists ← os_path_exists config_file;
  (if config_exists : bool then show_config config_file else mret ());;
  match openviking w with
  | None => print (PyStr.nl +:+ "  ❌ openviking not installed")
  | Some None =>
      print (PyStr.nl +:+ "  openviking installed (version unknown)")
  | Some (Some version) =>
      print (PyStr.nl +:+ "  openviking version: " +:+ version)
  end.

Definition main (a : args) : prog unit :=
  match command a with
  | None => print (help_text w);; sys_exit 1
  | Some (Add file_path) => cmd_add (data_dir a) file_path
  | Some (AddDir dir_path pattern) => cmd_add_dir (data_dir a) dir_path pattern
  | Some (Search query limit) => cmd_search (data_dir a) query limit
  | Some (LsCmd uri) => cmd_ls (data_dir a) uri
  | Some (AbstractCmd uri) => cmd_abstract (data_dir a) uri
  | Some (OverviewCmd uri) => cmd_overview (data_dir a) uri
  | Some (ReadCmd uri) => cmd_read (data_dir a) uri
  | Some Info => cmd_info (data_dir a)
  end.

End Script.

(** ** Reading a run *)

Definition run_state {S A} (r : S * trace * outcome A) : S := r.1.1.
Definition run_trace {S A} (r : S * trace * outcome A) : trace := r.1.2.
Definition run_outcome {S A} (r : S * trace * outcome A) : outcome A := r.2.

(** Events that go through the client, its construction included. *)
Definition is_client_event (e : event) : bool :=
  match e with
  | Construct _ _ | Initialize _ | AddResource _ _ | WaitProcessed _
  | Find _ _ _ | Read _ _ | Ls _ _ | Abstract _ _ | Overview _ _
  | Close _ => true
  | _ => false
  end.

Definition is_close (e : event) : bool :=
  match e with
  | Close _ => true
  | _ => false
  end.

Definition is_stderr (e : event) : bool :=
  match e with
  | Stderr _ => true
  | _ => false
  end.

(** Whether a client is open after a trace: a completed construction
    opens it, a call of [close] releases it. *)
Fixpoint left_open_from (open : bool) (t : trace) : bool :=
  match t with
  | [] => open
  | Construct _ (Ok _) :: t' => left_open_from true t'
  | Close _ :: t' => left_open_from false t'
  | _ :: t' => left_open_from open t'
  end.

Definition left_open (t : trace) : bool := left_open_from false t.

(** The subcommands whose handler calls [get_client]. *)
Definition client_using (cmd : subcommand) : bool :=
  match cmd with
  | Info => false
  | _ => true
  end.

(** The path that [cmd_add_dir] hands to [glob]. *)
Definition search_path (dir_path pattern : string) : string :=
  OsPath.join dir_path ["**"; str_or pattern "*.md"].

(** The invocations that get as far as [get_client]: every client-using
    subcommand, except [add-dir] when nothing matches. *)
Definition reaches_factory (w : world) (cmd : subcommand) : bool :=
  match cmd with
  | Info => false
  | AddDir dir_path pattern =>
      match glob w (search_path dir_path pattern) with
      | [] => false
      | _ :: _ => true
      end
  | _ => true
  end.

(** What a run shows before [get_client] is entered. *)
Definition before_factory (w : world) (cmd : subcommand) : trace :=
  match cmd with
  | AddDir dir_path pattern =>
      [Glob (search_path dir_path pattern)
            (glob w (search_path dir_path pattern))]
  | _ => []
  end.

(** What [get_client] shows when it terminates the process. *)
Definition factory_failure (w : world) : trace :=
  match openviking w with
  | None =>
      [Stderr "ERROR: openviking not installed. Run: pip install openviking"]
  | Some _ =>
      [PathExists (config_file w) false;
       Stderr ("ERROR: Config not found at " +:+ config_file w);
       Stderr "Create ~/.openviking/ov.conf or set OPENVIKING_CONFIG_FILE"]
  end.

(** What [get_client] shows when it returns the client. *)
Definition factory_success (w : world) (data_dir : string) : trace :=
  [PathExists (config_file w) true;
   Construct data_dir (Ok ());
   Initialize (Ok ())].

(** A fatal end before any client exists: a diagnostic on the error stream,
    a non-zero status, and no event that goes through a client. *)
Definition fatal_before_client {S} (r : S * trace * outcome unit) : Prop :=
  exit_status (run_outcome r) ≠ 0%Z
  ∧ (∃ text, Stderr text ∈ run_trace r)
  ∧ Forall (λ e, is_client_event e = false) (run_trace r).

(** The soft outcomes of the browsing subcommands: what the service
    answered, in which state it left the service, and the message. *)
Inductive answers_nothing {S} (sv : service S)
  : subcommand → S → event → string → S → Prop :=
| nothing_ls uri s s' :
    sv_ls sv s (str_or uri "viking://resources") = (s', Ok []) →
    answers_nothing sv (LsCmd uri) s
      (Ls (str_or uri "viking://resources") (Ok []))
      ("Empty: " +:+ str_or uri "viking://resources") s'
| nothing_abstract uri s s' r :
    sv_abstract sv s uri = (s', Ok r) → truthy r = false →
    answers_nothing sv (AbstractCmd uri) s
      (Abstract uri (Ok r)) ("No abstract available for " +:+ uri) s'
| nothing_overview uri s s' r :
    sv_overview sv s uri = (s', Ok r) → truthy r = false →
    answers_nothing sv (OverviewCmd uri) s
      (Overview uri (Ok r)) ("No overview available for " +:+ uri) s'
| nothing_read uri s s' r :
    sv_read sv s uri = (s', Ok r) → truthy r = false →
    answers_nothing sv (ReadCmd uri) s
      (Read uri (Ok r)) ("No content at " +:+ uri) s'.

(** The events of a run of [get_client] that does not return a client. *)
Definition refusal_event (e : event) : Prop :=
  match e with
  | Stderr _ | PathExists _ _ | Construct _ _ | Initialize (Err _) => True
  | _ => False
  end.

(** A computation all of whose events, from any state, satisfy [P]. *)
Definition emits {S A} (P : event → Prop) (m : M S A) : Prop :=
  ∀ s, Forall P (run_trace (m s)).

(** ** What [add-dir] submits and reports *)

(** A per-file result counts as a success when its status field equals
    "success". *)
Definition succeeded (r : add_result) : bool :=
  bool_decide (ar_status r = Some "success").

(** The line printed for a file: the success line, or the failure line
    with the first error message. *)
Definition file_line (f : string) (r : add_result) : event :=
  if succeeded r then Stdout ("  ✅ " +:+ f)
  else Stdout ("  ❌ " +:+ f +:+ ": "
               +:+ match default [] (ar_errors r) with
                   | e :: _ => e
                   | [] => "unknown error"
                   end).

(** A file that the service answered for: the call, then its line. *)
Definition file_events (f : string) (r : add_result) : trace :=
  [AddResource f (Ok r); file_line f r].

(** The results of the service for files submitted one after the other
    from a state, when every call answers, and the state it ends in. *)
Fixpoint add_answers {S} (sv : service S) (s : S) (files : list string)
  : option (list add_result * S) :=
  match files with
  | [] => Some ([], s)
  | f :: rest =>
      match sv_add_resource sv s f with
      | (s', Ok r) =>
          match add_answers sv s' rest with
          | Some (rs, s'') => Some (r :: rs, s'')
          | None => None
          end
      | (_, Err _) => None
      end
  end.

(** The paths submitted to the service in a run, in order. *)
Definition submitted (t : trace) : list string :=
  omap (λ e, match e with AddResource path _ => Some path | _ => None end) t.

(** ** What [search] displays *)

(** A string made of white-space characters only. *)
Inductive white_space : string → Prop :=
  | white_space_nil : white_space ""
  | white_space_cons h t :
      PyStr.space_char h = true → white_space t → white_space (h +:+ t).

(** The preview line of a result: present only when the content was
    fetched and is not empty. *)
Definition preview_line (answer : result (option string)) : trace :=
  match answer with
  | Ok (Some (String c rest)) =>
      [Stdout ("     Preview: " +:+ preview_of (String c rest) +:+ "...")]
  | _ => []
  end.

(** The block of a result: its numbered URI line, its score line, the
    fetch of its content, the preview line if any, and an empty line. *)
Definition result_block (ir : nat * resource)
    (answer : result (option string)) : trace :=
  [Stdout ("  " +:+ pretty ir.1 +:+ ". " +:+ r_uri ir.2);
   Stdout ("     Score: " +:+ r_score_4f ir.2);
   Read (r_uri ir.2) answer]
  ++ preview_line answer ++ [Stdout ""].

(** ** Where the configuration file is looked for *)

(** The home directory of the user: the variable HOME when it is set, the
    entry of the password database otherwise. *)
Definition home (w : world) : option string :=
  match environ w !! "HOME" with
  | Some h => Some h
  | None => pw_dir w
  end.

(** The default path, [~/.openviking/ov.conf] under the home directory; the
    tilde stays when no home directory is known. *)
Definition default_config (w : world) : string :=
  match home w with
  | Some h => PyStr.rstrip_char "/" h +:+ "/.openviking/ov.conf"
  | None => "~/.openviking/ov.conf"
  end.

(** The value of OPENVIKING_CONFIG_FILE when it is set, the default path
    otherwise. *)
Definition resolved_config (w : world) : string :=
  match environ w !! "OPENVIKING_CONFIG_FILE" with
  | Some v => v
  | None => default_config w
  end.

(** ** What [ls] displays *)

(** An entry is hidden when its name begins with "."; an entry without a
    name is shown as "?". *)
Definition hidden (e : entry) : bool :=
  PyStr.startswith "." (default "?" (e_name e)).

(** The two lines of a displayed entry: an icon, the name and, for a file
    only, the size in bytes; then the URI. *)
Definition entry_lines (e : entry) : trace :=
  let name := default "?" (e_name e) in
  let is_dir := default false (e_isDir e) in
  [Stdout ("  " +:+ (if is_dir then "📁" else "📄") +:+ " " +:+ name
           +:+ (if is_dir then "" else " (" +:+ pretty (default 0%Z (e_size e))
                                       +:+ "B)"));
   Stdout ("     " +:+ default "" (e_uri e))].

(** The display of a listing: the lines of the entries that are not
    hidden, in the order of the listing. *)
Definition listing (entries : list entry) : trace :=
  List.concat (map entry_lines (List.filter (λ e, negb (hidden e)) entries)).

(** How a handler ends once its body is through: [close] is called, and an
    exception of [close] replaces the outcome of the body. *)
Definition closing {S A} (sv : service S) (s : S) (t : trace) (o : outcome A)
  : S * trace * outcome A :=
  let '(s', rc) := sv_close sv s in
  (s', t ++ [Close rc],
   match rc with
   | Ok _ => o
   | Err e => Raise e
   end).

(** ** Further readings of a run *)

(** The calls of a method on the client, as opposed to its construction
    and initialisation by the factory. *)
Definition is_method_call (e : event) : bool :=
  match e with
  | AddResource _ _ | WaitProcessed _ | Find _ _ _ | Read _ _ | Ls _ _
  | Abstract _ _ | Overview _ _ | Close _ => true
  | _ => false
  end.

(** A computation that never ends through [sys.exit]. *)
Definition never_exits {S A} (m : M S A) : Prop :=
  ∀ s code, run_outcome (m s) ≠ Exit code.

(** The URIs whose content was fetched in a run, in order. *)
Definition fetched (t : trace) : list string :=
  omap (λ e, match e with Read uri _ => Some uri | _ => None end) t.

(** The lines that [cmd_add] prints for the error messages of a result. *)
Definition error_lines (errors : list string) : trace :=
  map (λ e, Stdout ("   Error: " +:+ e)) errors.

(** The browsing subcommands when the service has content: what it
    answered, the lines printed for it, and the state it left. *)
Inductive answers_content {S} (sv : service S)
  : subcommand → S → event → trace → S → Prop :=
| content_abstract uri s s' c text :
    sv_abstract sv s uri = (s', Ok (Some (String c text))) →
    answers_content sv (AbstractCmd uri) s
      (Abstract uri (Ok (Some (String c text))))
      [Stdout ("📝 Abstract for " +:+ uri +:+ ":" +:+ PyStr.nl);
       Stdout (String c text)] s'
| content_overview uri s s' c text :
    sv_overview sv s uri = (s', Ok (Some (String c text))) →
    answers_content sv (OverviewCmd uri) s
      (Overview uri (Ok (Some (String c text))))
      [Stdout ("📖 Overview for " +:+ uri +:+ ":" +:+ PyStr.nl);
       Stdout (String c text)] s'
| content_read uri s s' c text :
    sv_read sv s uri = (s', Ok (Some (String c text))) →
    answers_content sv (ReadCmd uri) s
      (Read uri (Ok (Some (String c text))))
      [Stdout (String c text)] s'.

(** The first call of a handler on the service, when that call raises. *)
Inductive call_raises {S} (sv : service S)
  : subcommand → S → event → exn → S → Prop :=
| raises_add path s s' e :
    sv_add_resource sv s path = (s', Err e) →
    call_raises sv (Add path) s (AddResource path (Err e)) e s'
| raises_find query limit s s' e :
    sv_find sv s query limit = (s', Err e) →
    call_raises sv (Search query limit) s (Find query limit (Err e)) e s'
| raises_ls uri s s' e :
    sv_ls sv s (str_or uri "viking://resources") = (s', Err e) →
    call_raises sv (LsCmd uri) s
      (Ls (str_or uri "viking://resources") (Err e)) e s'
| raises_abstract uri s s' e :
    sv_abstract sv s uri = (s', Err e) →
    call_raises sv (AbstractCmd uri) s (Abstract uri (Err e)) e s'
| raises_overview uri s s' e :
    sv_overview sv s uri = (s', Err e) →
    call_raises sv (OverviewCmd uri) s (Overview uri (Err e)) e s'
| raises_read uri s s' e :
    sv_read sv s uri = (s', Err e) →
    call_raises sv (ReadCmd uri) s (Read uri (Err e)) e s'.

(** ** What [info] displays *)

(** The events of [cmd_info] before it turns to the content of the
    configuration file. *)
Definition info_header (w : world) (data_dir : string) : trace :=
  [Stdout ("OpenViking Status" +:+ PyStr.nl);
   Stdout ("  Config: " +:+ config_file w);
   PathExists (config_file w) (path_exists w (config_file w));
   Stdout ("  Config exists: " +:+ str_of_bool (path_exists w (config_file w)));
   Abspath data_dir (abspath w data_dir);
   Stdout ("  Data dir: " +:+ abspath w data_dir);
   PathExists data_dir (path_exists w data_dir);
   Stdout ("  Data exists: " +:+ str_of_bool (path_exists w data_dir));
   PathExists (config_file w) (path_exists w (config_file w))].

(** The last line of [cmd_info], on the installed library. *)
Definition version_line (w : world) : event :=
  match openviking w with
  | None => Stdout (PyStr.nl +:+ "  ❌ openviking not installed")
  | Some None => Stdout (PyStr.nl +:+ "  openviking installed (version unknown)")
  | Some (Some version) =>
      Stdout (PyStr.nl +:+ "  openviking version: " +:+ version)
  end.

(** A field of a configuration section: its value, or the placeholder. *)
Definition config_field (w : world) (section : list (string * json))
    (key placeholder : string) : string :=
  py_str w (default (JStr placeholder) (assoc key section)).

(** A section of a configuration dict: the dict under the key, the empty
    dict when the key is absent, nothing when the value is not a dict. *)
Definition config_section (kvs : list (string * json)) (key : string)
  : option (list (string * json)) :=
  match default (JDict []) (assoc key kvs) with
  | JDict d => Some d
  | _ => None
  end.

(** The events and prints of [cmd_info] that are not about a client. *)
Definition info_event (e : event) : Prop :=
  match e with
  | Stdout _ | PathExists _ _ | Abspath _ _ | LoadJson _ _ => True
  | _ => False
  end.

(** Why the display of the configuration fails at once: the file cannot
    be loaded, or what it holds is not a dict.  The message is the one of
    the exception. *)
Definition load_failure (answer : result json) : option string :=
  match answer with
  | Err e => Some (exn_msg e)
  | Ok (JDict _) => None
  | Ok v => Some ("'" +:+ type_name v +:+ "' object has no attribute 'get'")
  end.

(** ** Sample environments *)

(** A machine with the library installed and no configuration file. *)
Definition bare_world : world := {|
  environ := ∅;
  pw_dir := Some "/root";
  pw_nam := λ _, None;
  path_exists := λ _, false;
  abspath := λ p, "/work/" +:+ p;
  glob := λ _, [];
  openviking := Some (Some "0.1.0");
  load_json := λ _, Err (Exn "FileNotFoundError" "No such file or directory");
  str_of_json := λ _, "";
  help_text := "usage: viking.py";
|}.

(** A machine that is set up: the configuration file is in place and the
    directory [docs] holds three Markdown files. *)
Definition ready_world : world := {|
  environ := {[ "HOME" := "/home/u" ]};
  pw_dir := None;
  pw_nam := λ _, None;
  path_exists := λ p, String.eqb p "/home/u/.openviking/ov.conf";
  abspath := λ p, "/work/" +:+ p;
  glob := λ p,
    if String.eqb p "docs/**/*.md"
    then ["docs/b.md"; "docs/c.md"; "docs/a.md"] else [];
  openviking := Some (Some "0.1.0");
  load_json := λ _, Ok (JDict []);
  str_of_json := λ _, "";
  help_text := "usage: viking.py";
|}.

(** A service with a small store.  Its state counts the files submitted.
    The file [docs/b.md] is refused, [docs/broken.md] cannot be read by
    the service, the content of the resource [a] cannot be fetched, and
    there is no abstract nor overview for anything. *)
Definition demo_service : service nat := {|
  sv_construct := λ s _, (s, Ok ());
  sv_initialize := λ s, (s, Ok ());
  sv_add_resource := λ s path,
    (s + 1,
     if String.eqb path "docs/b.md"
     then Ok (AddResult (Some "error") (Some ["unsupported"; "skipped"]) None)
     else if String.eqb path "docs/broken.md"
     then Err (Exn "OSError" "unreadable")
     else Ok (AddResult (Some "success") None (Some "viking://resources/r")));
  sv_wait_processed := λ s, (s, Ok ());
  sv_find := λ s query _,
    (s, if String.eqb query "" then Ok []
        else Ok [Resource "viking://resources/a" "0.9134";
                 Resource "viking://resources/b" "0.5000"]);
  sv_read := λ s uri,
    (s, if String.eqb uri "viking://resources/a"
        then Err (Exn "IOError" "gone")
        else if String.eqb uri "viking://resources/b"
        then Ok (Some ("  first line" +:+ PyStr.nl +:+ "second line  "))
        else Ok None);
  sv_ls := λ s uri,
    (s, if String.eqb uri "viking://resources"
        then Ok [Entry (Some ".git") (Some true) None
                   (Some "viking://resources/.git");
                 Entry (Some "readme.md") (Some false) (Some 120%Z)
                   (Some "viking://resources/readme.md");
                 Entry (Some ".env") None (Some 9%Z) None;
                 Entry (Some "docs") (Some true) (Some 0%Z)
                   (Some "viking://resources/docs")]
        else if String.eqb uri "viking://resources/.cache"
        then Ok [Entry (Some ".a") (Some true) None None;
                 Entry (Some ".b") (Some false) (Some 3%Z) None]
        else Ok []);
  sv_abstract := λ s _, (s, Ok None);
  sv_overview := λ s _, (s, Ok (Some ""));
  sv_close := λ s, (s, Ok ());
|}.

(** A service whose store cannot be opened: [initialize] raises. *)
Definition locked_service : service unit := {|
  sv_construct := λ s _, (s, Ok ());
  sv_initialize := λ s, (s, Err (Exn "RuntimeError" "store is locked"));
  sv_add_resource := λ s _, (s, Ok (AddResult (Some "success") None None));
  sv_wait_processed := λ s, (s, Ok ());
  sv_find := λ s _ _, (s, Ok []);
  sv_read := λ s _, (s, Ok None);
  sv_ls := λ s _, (s, Ok []);
  sv_abstract := λ s _, (s, Ok None);
  sv_overview := λ s _, (s, Ok None);
  sv_close := λ s, (s, Ok ());
|}.

(** A machine without the library. *)
Definition fresh_world : world := {|
  environ := {[ "OPENVIKING_CONFIG_FILE" := "/etc/ov.conf" ]};
  pw_dir := Some "/root";
  pw_nam := λ _, None;
  path_exists := λ p, String.eqb p "/etc/ov.conf";
  abspath := λ p, "/work/" +:+ p;
  glob := λ _, ["notes/todo.md"];
  openviking := None;
  load_json := λ _, Ok (JList []);
  str_of_json := λ _, "[]";
  help_text := "usage: viking.py";
|}.

(** The machine that is set up, with a given content of the configuration
    file and a directory [docs] in which one file cannot be read. *)
Definition configured_world (cfg : result json) : world := {|
  environ := {[ "HOME" := "/home/u" ]};
  pw_dir := None;
  pw_nam := λ _, None;
  path_exists := λ p, String.eqb p "/home/u/.openviking/ov.conf";
  abspath := λ p, "/work/" +:+ p;
  glob := λ p,
    if String.eqb p "docs/**/*.md"
    then ["docs/c.md"; "docs/broken.md"; "docs/a.md"] else [];
  openviking := Some None;
  load_json := λ _, cfg;
  str_of_json := λ v, match v with JInt n => pretty n | _ => "<json>" end;
  help_text := "usage: viking.py";
|}.

(** Two white-space characters outside ASCII: the no-break space U+00A0
    and the ideographic space U+3000. *)
Definition nbsp : string := PyStr.of_bytes [194; 160].
Definition ideographic_space : string := PyStr.of_bytes [227; 128; 128].

(** A content of 200 characters, each of two bytes. *)
Definition accents : string :=
  PyStr.of_bytes (List.concat (replicate 200 [195; 169])).

(** A content of white space only. *)
Definition blank_content : string :=
  "  " +:+ PyStr.nl +:+ nbsp +:+ ideographic_space.

(** A service whose every resource has a content of white space only. *)
Definition blank_service : service unit := {|
  sv_construct := λ s _, (s, Ok ());
  sv_initialize := λ s, (s, Ok ());
  sv_add_resource := λ s _, (s, Ok (AddResult (Some "success") None None));
  sv_wait_processed := λ s, (s, Ok ());
  sv_find := λ s _ _, (s, Ok [Resource "viking://resources/blank" "0.1000"]);
  sv_read := λ s _, (s, Ok (Some blank_content));
  sv_ls := λ s _, (s, Ok []);
  sv_abstract := λ s _, (s, Ok None);
  sv_overview := λ s _, (s, Ok None);
  sv_close := λ s, (s, Ok ());
|}.

(** * Properties *)

Section Properties.

Context {S : Type} (sv : service S) (w : world).

(** ** The client factory *)

Lemma get_client_unfold ddir s :
  get_client sv w ddir s =
  match openviking w with
  | None => (s, factory_failure w, Exit 1)
  | Some _ =>
      if path_exists w (config_file w) then
        match sv_construct sv s ddir with
        | (s1, Ok _) =>
            match sv_initialize sv s1 with
            | (s2, Ok _) =>
                (s2, factory_success w ddir, Ret (Client ddir))
            | (s2, Err e) =>
                (s2, [PathExists (config_file w) true;
                      Construct ddir (Ok ());
                      Initialize (Err e)], Raise e)
            end
        | (s1, Err e) =>
            (s1, [PathExists (config_file w) true;
                  Construct ddir (Err e)], Raise e)
        end
      else (s, factory_failure w, Exit 1)
  end.
Proof.
  unfold get_client, factory_failure, factory_success, os_path_exists, query,
    call, mbind, M_bind, bind, mret, M_ret, ret, eprint, emit, sys_exit.
  destruct (openviking w); simpl; [|done].
  destruct (path_exists w (config_file w)); simpl; [|done].
  destruct (sv_construct sv s ddir) as [s1 [[]|e]]; simpl; [|done].
  destruct (sv_initialize sv s1) as [s2 [[]|e]]; done.
Qed.

Lemma get_client_missing ddir s :
  path_exists w (config_file w) = false →
  get_client sv w ddir s = (s, factory_failure w, Exit 1).
Proof.
  intros H. rewrite get_client_unfold, H. by destruct (openviking w).
Qed.

Lemma get_client_ret ddir s s1 t1 c :
  get_client sv w ddir s = (s1, t1, Ret c) →
  t1 = factory_success w ddir ∧ c = Client ddir.
Proof.
  rewrite get_client_unfold.
  destruct (openviking w); [|done].
  destruct (path_exists w (config_file w)); [|done].
  destruct (sv_construct sv s ddir) as [s1' [[]|e]]; [|done].
  destruct (sv_initialize sv s1') as [s2 [[]|e]]; [|done].
  by intros [= <- <- <-].
Qed.

(** [get_client] either returns the client after a completed construction
    and initialisation, or ends otherwise with events of refusal only. *)
Lemma get_client_cases ddir s :
  (∃ s1, get_client sv w ddir s
         = (s1, factory_success w ddir, Ret (Client ddir)))
  ∨ (∃ s1 t1 o, get_client sv w ddir s = (s1, t1, o)
       ∧ (∀ c, o ≠ Ret c) ∧ Forall refusal_event t1).
Proof.
  rewrite get_client_unfold. unfold factory_failure.
  destruct (openviking w);
    [|right; eexists _, _, _; by repeat constructor].
  destruct (path_exists w (config_file w));
    [|right; eexists _, _, _; by repeat constructor].
  destruct (sv_construct sv s ddir) as [s1 [[]|e]];
    [|right; eexists _, _, _; by repeat constructor].
  destruct (sv_initialize sv s1) as [s2 [[]|e]];
    [left; by eexists|right; eexists _, _, _; by repeat constructor].
Qed.

(** Unfolding of the monad, for runs that are followed step by step. *)
Ltac unfold_prog :=
  unfold mbind, M_bind, bind, mret, M_ret, ret, try_finally, try_except,
    print, eprint, emit, sys_exit, call, query, of_result in *.

(** ** The shape shared by the handlers *)

(** Every client-using handler is [get_client] followed by a [try] whose
    [finally] closes the client.  When the factory returns the client, the
    run is the factory's events, the events of the body, and the call of
    [close]. *)
Lemma with_client_acquired {A} (body : client → M S A) ddir s s1 t1 c :
  get_client sv w ddir s = (s1, t1, Ret c) →
  (client ← get_client sv w ddir;
   try_finally (body client) (close sv client)) s =
  let '(s2, t2, o2) := body c s1 in closing sv s2 (t1 ++ t2) o2.
Proof.
  intros Hget. unfold close, closing. unfold_prog. rewrite Hget.
  destruct (body c s1) as [[s2 t2] o2].
  destruct (sv_close sv s2) as [s3 [[]|e]]; by rewrite <- app_assoc.
Qed.

(** When the factory leaves through [sys.exit] or raises, so does the
    handler, with nothing added. *)
Lemma with_client_exit {A} (body : client → M S A) ddir s s1 t1 code :
  get_client sv w ddir s = (s1, t1, Exit code) →
  (client ← get_client sv w ddir;
   try_finally (body client) (close sv client)) s = (s1, t1, Exit code).
Proof. intros Hget. unfold_prog. by rewrite Hget. Qed.

Lemma with_client_raise {A} (body : client → M S A) ddir s s1 t1 e :
  get_client sv w ddir s = (s1, t1, Raise e) →
  (client ← get_client sv w ddir;
   try_finally (body client) (close sv client)) s = (s1, t1, Raise e).
Proof. intros Hget. unfold_prog. by rewrite Hget. Qed.

Lemma sorted_nil : sorted [] = [].
Proof. reflexivity. Qed.

Lemma sorted_perm (xs : list string) : sorted xs ≡ₚ xs.
Proof. apply merge_sort_Permutation. Qed.

Lemma sorted_cons (x : string) (xs : list string) :
  ∃ f fs, sorted (x :: xs) = f :: fs.
Proof.
  destruct (sorted (x :: xs)) as [|f fs] eqn:E; [|by eauto].
  pose proof (sorted_perm (x :: xs)) as Hp. rewrite E in Hp.
  by apply Permutation_nil_cons in Hp.
Qed.

(** The run of [cmd_add_dir]: the glob, then either the message, or the
    handler of the shared shape over the sorted matches. *)
Lemma cmd_add_dir_unfold ddir dir_path pattern s :
  cmd_add_dir sv w ddir dir_path pattern s =
  let found := glob w (search_path dir_path pattern) in
  match sorted found with
  | [] =>
      (s, [Glob (search_path dir_path pattern) found;
           Stdout ("No files matching '" +:+ str_or pattern "*.md"
                   +:+ "' found in " +:+ dir_path)], Ret ())
  | files =>
      let '(s', t, o) :=
        (client ← get_client sv w ddir;
         try_finally (add_dir_try sv client files) (close sv client)) s in
      (s', Glob (search_path dir_path pattern) found :: t, o)
  end.
Proof.
  unfold cmd_add_dir.
  change (OsPath.join dir_path ["**"; str_or pattern "*.md"])
    with (search_path dir_path pattern).
  unfold mbind at 1, M_bind at 1, bind at 1, query at 1.
  by destruct (sorted (glob w (search_path dir_path pattern))).
Qed.

(** ** Soft outcomes *)

(** C3: when the glob pattern of [add-dir] matches no file, the run prints
    the "No files matching" message on standard output, constructs no
    client (no event goes through a client, and the service is left as it
    was), and the process exits with status 0. *)
Theorem add_dir_no_match ddir dir_path pattern s :
  glob w (search_path dir_path pattern) = [] →
  let r := main sv w (Args ddir (Some (AddDir dir_path pattern))) s in
  run_trace r =
    [Glob (search_path dir_path pattern) [];
     Stdout ("No files matching '" +:+ str_or pattern "*.md"
             +:+ "' found in " +:+ dir_path)]
  ∧ Forall (λ e, is_client_event e = false) (run_trace r)
  ∧ run_state r = s
  ∧ exit_status (run_outcome r) = 0%Z.
Proof.
  intros Hglob r. subst r.
  unfold main, command, data_dir.
  rewrite cmd_add_dir_unfold. simpl. rewrite Hglob, sorted_nil.
  repeat split. by repeat constructor.
Qed.

(** C7: for [ls], [abstract], [overview] and [read], when the client has
    been acquired and the service answers nothing (an empty listing, [None]
    or an empty string), the handler prints the message of that subcommand
    on standard output, nothing on the error stream, closes the client, and
    the process exits with status 0. *)
Theorem soft_outcome ddir cmd s0 s1 t1 c ev msg s2 s3 :
  get_client sv w ddir s0 = (s1, t1, Ret c) →
  answers_nothing sv cmd s1 ev msg s2 →
  sv_close sv s2 = (s3, Ok ()) →
  let r := main sv w (Args ddir (Some cmd)) s0 in
  run_trace r = t1 ++ [ev; Stdout msg; Close (Ok ())]
  ∧ Forall (λ e, is_stderr e = false) (run_trace r)
  ∧ exit_status (run_outcome r) = 0%Z.
Proof.
  intros Hget Hnothing Hclose r. subst r.
  destruct (get_client_ret _ _ _ _ _ Hget) as [Ht1 _].
  assert (Hquiet : Forall (λ e, is_stderr e = false)
                     (t1 ++ [ev; Stdout msg; Close (Ok ())])).
  { subst t1. destruct Hnothing; by repeat constructor. }
  destruct Hnothing as [uri s s' Hans|uri s s' r Hans Hr|uri s s' r Hans Hr
                       |uri s s' r Hans Hr];
    unfold main, command, data_dir,
      cmd_ls, cmd_abstract, cmd_overview, cmd_read;
    rewrite (with_client_acquired _ _ _ _ _ _ Hget);
    unfold client_ls, client_abstract, client_overview, client_read;
    unfold closing; unfold_prog; rewrite Hans, ?Hr, Hclose;
    by rewrite <- ?app_assoc in *.
Qed.

(** ** Fatal conditions *)

Lemma factory_failure_fatal (pre : trace) (s : S) :
  Forall (λ e, is_client_event e = false) pre →
  fatal_before_client (s, pre ++ factory_failure w, Exit (A:=unit) 1).
Proof.
  intros Hpre. unfold fatal_before_client, run_outcome, run_trace; simpl.
  split; [done|]. unfold factory_failure. split.
  - destruct (openviking w); eexists; rewrite elem_of_app; right;
      [apply list_elem_of_further|]; apply list_elem_of_here.
  - apply Forall_app. split; [done|].
    destruct (openviking w); by repeat constructor.
Qed.

(** C4, as amended: for every invocation that reaches the client factory
    (add, search, ls, abstract, overview, read, and add-dir when at least
    one file matches), if the resolved configuration file does not exist
    the run ends in [sys.exit(1)] right after a diagnostic on the error
    stream; no client is constructed, no client call is made, and the
    service is left as it was. *)
Theorem missing_config_is_fatal ddir cmd s :
  reaches_factory w cmd = true →
  path_exists w (config_file w) = false →
  let r := main sv w (Args ddir (Some cmd)) s in
  run_trace r = before_factory w cmd ++ factory_failure w
  ∧ run_outcome r = Exit 1
  ∧ run_state r = s
  ∧ fatal_before_client r.
Proof.
  intros Hreach Hcfg r.
  assert (Hr : r = (s, before_factory w cmd ++ factory_failure w, Exit 1)).
  { subst r. pose proof (get_client_missing ddir s Hcfg) as Hget.
    destruct cmd; try discriminate Hreach;
      unfold main, command, data_dir, before_factory;
      try (unfold cmd_add, cmd_search, cmd_ls, cmd_abstract, cmd_overview,
             cmd_read; by rewrite (with_client_exit _ _ _ _ _ _ Hget)).
    rewrite cmd_add_dir_unfold. simpl in Hreach |- *.
    destruct (glob w (search_path dir_path pattern)) as [|x xs]; [done|].
    destruct (sorted_cons x xs) as (f & fs & Hs). rewrite Hs.
    by rewrite (with_client_exit _ _ _ _ _ _ Hget). }
  rewrite Hr. do 3 (split; [done|]).
  apply factory_failure_fatal.
  destruct cmd; by repeat constructor.
Qed.

(** ** Loops *)

(** A loop whose body only prints: the state is untouched and the output
    is that of the iterations, one after the other. *)
Lemma for_each_prints {A} (body : A → M S unit) (lines : A → trace) xs s :
  (∀ x s', body x s' = (s', lines x, Ret ())) →
  for_each xs body s = (s, List.concat (map lines xs), Ret ()).
Proof.
  intros Hbody. unfold for_each.
  induction xs as [|x xs IH]; [done|].
  simpl. unfold bind. by rewrite Hbody, IH.
Qed.

(** ** [ls] *)

Lemma ls_body_run e (s : S) :
  ls_body e s = (s, if hidden e then [] else entry_lines e, Ret ()).
Proof.
  unfold ls_body, hidden, entry_lines.
  destruct (PyStr.startswith "." (default "?" (e_name e))); [done|].
  by destruct (default false (e_isDir e)).
Qed.

Lemma ls_loop_run entries (s : S) :
  for_each entries ls_body s = (s, listing entries, Ret ()).
Proof.
  rewrite (for_each_prints _ (λ e, if hidden e then [] else entry_lines e))
    by apply ls_body_run.
  do 2 f_equal. unfold listing.
  induction entries as [|e es IH]; [done|].
  simpl. rewrite IH. by destruct (hidden e).
Qed.

(** The run of [cmd_ls] once the client is acquired, by what the service
    answers. *)
Lemma cmd_ls_run ddir uri s0 s1 t1 c :
  get_client sv w ddir s0 = (s1, t1, Ret c) →
  let uri' := str_or uri "viking://resources" in
  cmd_ls sv w ddir uri s0 =
  match sv_ls sv s1 uri' with
  | (s2, Ok []) =>
      closing sv s2 (t1 ++ [Ls uri' (Ok []); Stdout ("Empty: " +:+ uri')])
        (Ret ())
  | (s2, Ok entries) =>
      closing sv s2
        (t1 ++ [Ls uri' (Ok entries); Stdout ("📁 " +:+ uri' +:+ PyStr.nl)]
            ++ listing entries)
        (Ret ())
  | (s2, Err e) => closing sv s2 (t1 ++ [Ls uri' (Err e)]) (Raise e)
  end.
Proof.
  intros Hget uri'. unfold cmd_ls. fold uri'.
  rewrite (with_client_acquired _ _ _ _ _ _ Hget).
  unfold client_ls, call, mbind, M_bind, bind.
  destruct (sv_ls sv s1 uri') as [s2 [[|e es]|e]]; simpl; [done| |done].
  unfold print, emit. by rewrite ls_loop_run.
Qed.

(** C6: when the client is acquired and the service answers a non-empty
    listing, [ls] prints the header and then the display of the listing,
    which holds the lines of exactly the entries whose name does not begin
    with "." (whatever their directory flag): an icon, the name, the size
    in bytes for a file only, and the URI. *)
Theorem ls_shows_visible_entries ddir uri s0 s1 t1 c entries s2 :
  get_client sv w ddir s0 = (s1, t1, Ret c) →
  sv_ls sv s1 (str_or uri "viking://resources") = (s2, Ok entries) →
  entries ≠ [] →
  let uri' := str_or uri "viking://resources" in
  let r := main sv w (Args ddir (Some (LsCmd uri))) s0 in
  run_trace r =
    t1 ++ [Ls uri' (Ok entries); Stdout ("📁 " +:+ uri' +:+ PyStr.nl)]
       ++ List.concat
            (map entry_lines (List.filter (λ e, negb (hidden e)) entries))
       ++ [Close (sv_close sv s2).2]
  ∧ (∀ e, e ∈ entries → hidden e = true →
       e ∉ List.filter (λ e, negb (hidden e)) entries)
  ∧ (∀ e, e ∈ entries → hidden e = false →
       e ∈ List.filter (λ e, negb (hidden e)) entries).
Proof.
  intros Hget Hls Hne uri' r. subst r. split; [|split].
  - unfold main, command, data_dir.
    rewrite (cmd_ls_run _ _ _ _ _ _ Hget). fold uri'. fold uri' in Hls.
    rewrite Hls. destruct entries as [|e es]; [done|].
    unfold closing. destruct (sv_close sv s2) as [s3 rc].
    unfold run_trace, listing; simpl. by rewrite <- !app_assoc.
  - intros e _ Hh Hin. apply list_elem_of_In, filter_In in Hin.
    destruct Hin as [_ Hin]. by rewrite Hh in Hin.
  - intros e Hin Hh. apply list_elem_of_In, filter_In. split.
    + by apply list_elem_of_In.
    + by rewrite Hh.
Qed.

Lemma listing_lines entries text :
  Stdout text ∈ listing entries →
  PyStr.startswith "Empty: " text = false.
Proof.
  unfold listing. intros Hin.
  apply list_elem_of_In, in_concat in Hin. destruct Hin as (ls & Hls & Hin).
  apply in_map_iff in Hls. destruct Hls as (e & <- & _).
  unfold entry_lines in Hin. simpl in Hin.
  destruct Hin as [[= <-]|[[= <-]|[]]]; reflexivity.
Qed.

Lemma refusal_no_stdout t text :
  Forall refusal_event t → Stdout text ∉ t.
Proof.
  intros Hall Hin. rewrite Forall_forall in Hall. by apply Hall in Hin.
Qed.

(** C10: in a run of [ls], a line beginning with "Empty: " is printed only
    when the service answered the empty listing; and when the client is
    acquired and the listing is not empty but all its entries are hidden,
    the run prints the header and nothing else before the client is
    closed. *)
Theorem ls_empty_only_when_empty ddir uri s0 :
  let uri' := str_or uri "viking://resources" in
  let r := main sv w (Args ddir (Some (LsCmd uri))) s0 in
  (∀ text, Stdout text ∈ run_trace r →
           PyStr.startswith "Empty: " text = true →
           Ls uri' (Ok []) ∈ run_trace r)
  ∧ (∀ s1 t1 c entries s2,
       get_client sv w ddir s0 = (s1, t1, Ret c) →
       sv_ls sv s1 uri' = (s2, Ok entries) →
       entries ≠ [] →
       Forall (λ e, hidden e = true) entries →
       run_trace r =
         t1 ++ [Ls uri' (Ok entries); Stdout ("📁 " +:+ uri' +:+ PyStr.nl);
                Close (sv_close sv s2).2]).
Proof.
  intros uri' r. subst r. unfold main, command, data_dir. split.
  - intros text Hin Hpre.
    destruct (get_client_cases ddir s0)
      as [[s1 Hget]|(s1 & t1 & o & Hget & Hno & Hall)].
    + rewrite (cmd_ls_run _ _ _ _ _ _ Hget) in Hin |- *. fold uri' in Hin |- *.
      destruct (sv_ls sv s1 uri') as [s2 [[|e es]|e]];
        unfold closing in *; destruct (sv_close sv s2) as [s3 rc];
        unfold run_trace in *; simpl in *.
      * rewrite !elem_of_cons. tauto.
      * rewrite !elem_of_cons, elem_of_app, list_elem_of_singleton in Hin.
        destruct Hin as [[=]|[[=]|[[=]|[[=]|[[= ->]|[Hin|[=]]]]]]].
        -- discriminate Hpre.
        -- by rewrite (listing_lines _ _ Hin) in Hpre.
      * rewrite !elem_of_cons, elem_of_nil in Hin.
        destruct Hin as [[=]|[[=]|[[=]|[[=]|[[=]|[]]]]]].
    + unfold cmd_ls in Hin. unfold mbind, M_bind, bind in Hin.
      rewrite Hget in Hin.
      destruct o as [c|e|code]; [by destruct (Hno c)|..];
        by apply (refusal_no_stdout _ _ Hall) in Hin.
  - intros s1 t1 c entries s2 Hget Hls Hne Hhidden.
    rewrite (cmd_ls_run _ _ _ _ _ _ Hget). fold uri'. rewrite Hls.
    destruct entries as [|e es]; [done|].
    unfold closing. destruct (sv_close sv s2) as [s3 rc].
    unfold run_trace; simpl. rewrite <- app_assoc. simpl.
    assert (Hnil : listing (e :: es) = []).
    { unfold listing. clear Hls Hne.
      induction Hhidden as [|x xs Hx _ IH]; [done|].
      simpl. by rewrite Hx. }
    by rewrite Hnil.
Qed.

(** ** Events of a computation *)

Section Emits.

Context (P : event → Prop).

Lemma emits_ret {A} (a : A) : emits (S:=S) P (ret a).
Proof. intros s. constructor. Qed.

Lemma emits_mret {A} (a : A) : emits (S:=S) P (mret a).
Proof. apply emits_ret. Qed.

Lemma emits_sys_exit {A} code : emits (S:=S) (A:=A) P (sys_exit code).
Proof. intros s. constructor. Qed.

Lemma emits_emit ev : P ev → emits (S:=S) P (emit ev).
Proof. intros Hev s. by repeat constructor. Qed.

Lemma emits_print text : P (Stdout text) → emits (S:=S) P (print text).
Proof. apply emits_emit. Qed.

Lemma emits_call {A} (op : S → S * result A) ev :
  (∀ r, P (ev r)) → emits P (call op ev).
Proof.
  intros Hev s. unfold call, run_trace. destruct (op s) as [s' r]; simpl.
  by repeat constructor.
Qed.

Lemma emits_query {A} (a : A) ev : P (ev a) → emits (S:=S) P (query a ev).
Proof. intros Hev s. by repeat constructor. Qed.

Lemma emits_bind {A B} (m : M S A) (k : A → M S B) :
  emits P m → (∀ a, emits P (k a)) → emits P (m ≫= k).
Proof.
  intros Hm Hk s. specialize (Hm s). unfold mbind, M_bind, bind, run_trace in *.
  destruct (m s) as [[s1 t1] [a|e|code]]; simpl in *; [|done..].
  specialize (Hk a s1). unfold run_trace in Hk.
  destruct (k a s1) as [[s2 t2] o]; simpl in *. by apply Forall_app.
Qed.

Lemma emits_try_except {A} (body : M S A) (handler : exn → M S A) :
  emits P body → (∀ e, emits P (handler e)) → emits P (try_except body handler).
Proof.
  intros Hb Hh s. specialize (Hb s). unfold try_except, run_trace in *.
  destruct (body s) as [[s1 t1] [a|e|code]]; simpl in *; [done| |done].
  specialize (Hh e s1). unfold run_trace in Hh.
  destruct (handler e s1) as [[s2 t2] o]; simpl in *. by apply Forall_app.
Qed.

Lemma emits_for_fold {A B} (xs : list A) (acc : B) (body : A → B → M S B) :
  (∀ x acc', emits P (body x acc')) → emits P (for_fold xs acc body).
Proof.
  intros Hbody. revert acc.
  induction xs as [|x xs IH]; intros acc; simpl.
  - apply emits_ret.
  - apply (emits_bind (body x acc)); [apply Hbody|apply IH].
Qed.

Lemma emits_for_each {A} (xs : list A) (body : A → M S unit) :
  (∀ x, emits P (body x)) → emits P (for_each xs body).
Proof. intros Hbody. apply emits_for_fold. intros x _. apply Hbody. Qed.

End Emits.

(** Follows a computation through the combinators above. *)
Ltac emits_steps :=
  repeat first
    [ apply emits_mret
    | apply emits_ret
    | apply emits_sys_exit
    | apply emits_print; done
    | apply emits_emit; done
    | apply emits_call; done
    | apply emits_query; done
    | apply emits_for_each; intros
    | apply emits_for_fold; intros
    | apply emits_try_except; [|intros]
    | apply emits_bind; [|intros]
    | match goal with
      | |- emits _ (if ?b then _ else _) => destruct b
      | |- emits _ (match ?x with _ => _ end) => destruct x
      | |- emits _ (let '(_, _) := ?x in _) => destruct x
      end ].

Lemma add_dir_body_emits P c f counts :
  (∀ r, P (AddResource f r)) → (∀ text, P (Stdout text)) →
  emits P (add_dir_body sv c f counts).
Proof.
  intros Hadd Hout. unfold add_dir_body, add_resource.
  destruct counts as [sc fc]. emits_steps.
Qed.

Lemma search_body_emits P c ir :
  (∀ r, P (Read (r_uri ir.2) r)) → (∀ text, P (Stdout text)) →
  emits P (search_body sv c ir).
Proof.
  intros Hread Hout. unfold search_body, client_read.
  destruct ir as [i r]. emits_steps.
Qed.

Lemma ls_body_emits P e :
  (∀ text, P (Stdout text)) → emits (S:=S) P (ls_body e).
Proof. intros Hout. unfold ls_body. emits_steps. Qed.

(** The same through the bodies of the handlers. *)
Ltac emits_handler :=
  unfold add_dir_try, add_resource, wait_processed, find, client_ls,
    client_abstract, client_overview, client_read;
  repeat first
    [ apply add_dir_body_emits; done
    | apply search_body_emits; done
    | apply ls_body_emits; done
    | progress emits_steps ].

(** ** Release of the client *)

Lemma left_open_closed b pre rc : left_open_from b (pre ++ [Close rc]) = false.
Proof.
  revert b. induction pre as [|e pre IH]; intros b; [done|].
  destruct e as [| | | | | |? []| | | | | | | | |]; simpl; apply IH.
Qed.

Lemma refusal_not_acquired t :
  Forall refusal_event t → Initialize (Ok ()) ∉ t.
Proof.
  intros Hall Hin. rewrite Forall_forall in Hall. by apply Hall in Hin.
Qed.

(** A handler of the shared shape, once the factory has completed the
    initialisation, ends its trace with the one call of [close]. *)
Lemma handler_closes {A} (body : client → M S A) ddir s :
  (∀ c, emits (λ e, is_close e = false) (body c)) →
  let t := run_trace ((client ← get_client sv w ddir;
                       try_finally (body client) (close sv client)) s) in
  Initialize (Ok ()) ∈ t →
  ∃ pre rc, t = pre ++ [Close rc] ∧ Forall (λ e, is_close e = false) pre.
Proof.
  intros Hbody t Hin. subst t.
  destruct (get_client_cases ddir s)
    as [[s1 Hget]|(s1 & t1 & o & Hget & Hno & Hall)].
  - rewrite (with_client_acquired _ _ _ _ _ _ Hget).
    specialize (Hbody (Client ddir) s1). unfold run_trace in Hbody.
    destruct (body (Client ddir) s1) as [[s2 t2] o2]; simpl in Hbody.
    unfold closing. destruct (sv_close sv s2) as [s3 rc].
    exists (factory_success w ddir ++ t2), rc. split; [done|].
    apply Forall_app. split; [by repeat constructor|done].
  - exfalso. revert Hin. unfold mbind, M_bind, bind. rewrite Hget.
    destruct o as [c|e|code]; [by destruct (Hno c)|..];
      by apply refusal_not_acquired.
Qed.

(** C5, as amended: in every run of a client-using handler in which the
    factory has returned the client (construction and [initialize] both
    completed), [close] is called exactly once and it is the last event of
    the run, however the body ended: normally, after a failure that was
    reported, or by an exception of a client call.  No client is left
    open. *)
Theorem client_closed_once_acquired ddir cmd s :
  client_using cmd = true →
  let r := main sv w (Args ddir (Some cmd)) s in
  Initialize (Ok ()) ∈ run_trace r →
  (∃ pre rc, run_trace r = pre ++ [Close rc]
             ∧ Forall (λ e, is_close e = false) pre)
  ∧ left_open (run_trace r) = false.
Proof.
  intros Husing r Hin. subst r.
  assert (Hshape : ∃ pre rc,
             run_trace (main sv w (Args ddir (Some cmd)) s) = pre ++ [Close rc]
             ∧ Forall (λ e, is_close e = false) pre).
  { revert Hin. unfold main, command, data_dir.
    destruct cmd; try discriminate Husing;
      try (unfold cmd_add, cmd_search, cmd_ls, cmd_abstract, cmd_overview,
             cmd_read;
           apply handler_closes; intros c; by emits_handler).
    rewrite cmd_add_dir_unfold. cbv zeta.
    destruct (sorted (glob w (search_path dir_path pattern))) as [|f fs].
    - unfold run_trace; simpl.
      rewrite !elem_of_cons, elem_of_nil. by intros [[=]|[[=]|[]]].
    - pose proof (handler_closes (λ client, add_dir_try sv client (f :: fs))
                    ddir s) as Hc.
      simpl in Hc.
      destruct ((client ← get_client sv w ddir;
                 try_finally (add_dir_try sv client (f :: fs))
                   (close sv client)) s) as [[s' t'] o'].
      unfold run_trace in *; simpl in *.
      rewrite elem_of_cons. intros [[=]|Hin].
      destruct Hc as (pre & rc & -> & Hpre); [|done|].
      + intros c. by emits_handler.
      + exists (Glob (search_path dir_path pattern)
                     (glob w (search_path dir_path pattern)) :: pre), rc.
        split; [done|]. by constructor. }
  split; [done|].
  destruct Hshape as (pre & rc & -> & _). apply left_open_closed.
Qed.

(** ** [add-dir] *)

Lemma succeeded_status r :
  String.eqb (default "unknown" (ar_status r)) "success" = succeeded r.
Proof.
  unfold succeeded. destruct (ar_status r) as [st|]; simpl; [|done].
  destruct (String.eqb_spec st "success") as [->|Hne]; [done|].
  symmetry. apply bool_decide_eq_false. congruence.
Qed.

(** One iteration whose call is answered. *)
Lemma add_dir_body_run c f sc fc s s' r :
  sv_add_resource sv s f = (s', Ok r) →
  add_dir_body sv c f (sc, fc) s =
  (s', file_events f r,
   Ret (if succeeded r then (sc + 1, fc) else (sc, fc + 1))).
Proof.
  intros Hans. unfold add_dir_body, add_resource, file_events, file_line.
  unfold_prog. rewrite Hans, succeeded_status.
  by destruct (succeeded r).
Qed.

(** The loop when every call is answered: the files' events in order, and
    the counters advanced by the numbers of successes and of failures. *)
Lemma add_dir_loop_run c files : ∀ s results s' sc fc,
  add_answers sv s files = Some (results, s') →
  for_fold files (sc, fc) (add_dir_body sv c) s =
  (s', List.concat (zip_with file_events files results),
   Ret (sc + List.length (List.filter succeeded results),
        fc + List.length (List.filter (λ r, negb (succeeded r)) results))).
Proof.
  induction files as [|f files IH]; intros s results s' sc fc Hans.
  - injection Hans as <- <-. simpl. unfold ret.
    by rewrite !Nat.add_0_r.
  - simpl in Hans.
    destruct (sv_add_resource sv s f) as [s1 [r|e]] eqn:Hf; [|done].
    destruct (add_answers sv s1 files) as [[rs s'']|] eqn:Hrest; [|done].
    injection Hans as <- <-.
    cbn [for_fold]. unfold bind. rewrite (add_dir_body_run _ _ _ _ _ _ _ Hf).
    destruct (succeeded r) eqn:Hr; rewrite (IH _ _ _ _ _ Hrest); simpl;
      rewrite Hr; simpl; do 3 f_equal; lia.
Qed.

Lemma add_answers_length files : ∀ s results s',
  add_answers sv s files = Some (results, s') →
  List.length results = List.length files.
Proof.
  induction files as [|f files IH]; intros s results s' Hans.
  - by injection Hans as <- <-.
  - simpl in Hans.
    destruct (sv_add_resource sv s f) as [s1 [r|e]]; [|done].
    destruct (add_answers sv s1 files) as [[rs s'']|] eqn:Hrest; [|done].
    injection Hans as <- <-. simpl. f_equal. by eapply IH.
Qed.

(** C2: in a run of [add-dir] over a non-empty list of matched files, with
    the client acquired, every submission answered and the wait for the
    processing completed, the run shows for each file its call followed by
    one line, the success line when the status of its result is "success"
    and the failure line otherwise; then the one wait for the processing;
    then the summary, whose counts are the number of results whose status
    equals "success" and the number of those whose status does not. *)
Theorem add_dir_counts ddir dir_path pattern s0 s1 t1 c results s2 s3 :
  let found := glob w (search_path dir_path pattern) in
  let files := sorted found in
  files ≠ [] →
  get_client sv w ddir s0 = (s1, t1, Ret c) →
  add_answers sv s1 files = Some (results, s2) →
  sv_wait_processed sv s2 = (s3, Ok ()) →
  let successes := List.length (List.filter succeeded results) in
  let failures := List.length (List.filter (λ r, negb (succeeded r)) results) in
  let r := main sv w (Args ddir (Some (AddDir dir_path pattern))) s0 in
  List.length results = List.length files
  ∧ successes + failures = List.length files
  ∧ run_trace r =
      Glob (search_path dir_path pattern) found
      :: t1
      ++ List.concat (zip_with file_events files results)
      ++ [Stdout (PyStr.nl +:+ "⏳ Processing " +:+ pretty successes
                  +:+ " files...");
          WaitProcessed (Ok ());
          Stdout ("✅ Done. Success: " +:+ pretty successes
                  +:+ ", Failed: " +:+ pretty failures);
          Close (sv_close sv s3).2].
Proof.
  intros found files Hne Hget Hans Hwait successes failures r.
  pose proof (add_answers_length _ _ _ _ Hans) as Hlen.
  split; [done|]. split.
  { rewrite <- Hlen. subst successes failures. clear.
    induction results as [|x xs IH]; [done|].
    simpl. destruct (succeeded x); simpl; lia. }
  subst r files. unfold main, command, data_dir.
  rewrite cmd_add_dir_unfold. fold found. cbv zeta.
  destruct (sorted found) as [|f fs]; [done|].
  rewrite (with_client_acquired (λ client, add_dir_try sv client (f :: fs))
             _ _ _ _ _ Hget).
  unfold add_dir_try. unfold mbind at 1, M_bind at 1, bind at 1.
  rewrite (add_dir_loop_run _ _ _ _ _ 0 0 Hans). simpl.
  fold successes failures.
  unfold wait_processed. unfold_prog. rewrite Hwait. simpl.
  unfold closing. destruct (sv_close sv s3) as [s4 rc].
  unfold run_trace; simpl. by rewrite <- !app_assoc.
Qed.

(** ** The order of the submissions *)

Lemma str_le_iff a b : str_le a b ↔ a = b ∨ String_as_OT.lt a b.
Proof.
  unfold str_le, String.leb.
  destruct (String.compare a b) eqn:E; simpl.
  - apply String_as_OT.cmp_eq in E. tauto.
  - apply String_as_OT.cmp_lt in E. tauto.
  - split; [done|]. intros [->|Hlt].
    + assert (String_as_OT.cmp b b = Eq) as Hb by by apply String_as_OT.cmp_eq.
      unfold String_as_OT.cmp in Hb. congruence.
    + apply String_as_OT.cmp_lt in Hlt.
      unfold String_as_OT.cmp in Hlt. congruence.
Qed.

#[local] Instance str_le_total : Total str_le.
Proof.
  intros a b. unfold str_le.
  destruct (String.leb_total a b) as [->| ->]; [by left|by right].
Qed.

#[local] Instance str_le_trans : Transitive str_le.
Proof.
  intros a b c. rewrite !str_le_iff.
  intros [->|Hab] [->|Hbc]; [tauto..|].
  right. by apply (String_as_OT.lt_trans a b c).
Qed.

#[local] Instance str_le_antisym : AntiSymm (=) str_le.
Proof.
  intros a b Hab Hba. unfold str_le in *.
  apply String.leb_antisym; by apply Is_true_true.
Qed.

Lemma sorted_Sorted xs : Sorted str_le (sorted xs).
Proof. apply Sorted_merge_sort, _. Qed.

(** The result of [sorted] depends on the elements only, not on the order
    in which [glob] found them. *)
Lemma sorted_of_perm xs ys : xs ≡ₚ ys → sorted xs = sorted ys.
Proof.
  intros Hp. apply (Sorted_unique str_le); try apply sorted_Sorted.
  by rewrite !sorted_perm.
Qed.

Lemma submitted_none t :
  Forall (λ e, ∀ path r, e ≠ AddResource path r) t → submitted t = [].
Proof.
  induction 1 as [|e t He _ IH]; [done|].
  destruct e; try exact IH. by destruct (He path answer).
Qed.

(** An iteration submits its file, whatever the service answers. *)
Lemma add_dir_body_submits c f counts s :
  submitted (run_trace (add_dir_body sv c f counts s)) = [f].
Proof.
  destruct counts as [sc fc].
  unfold add_dir_body, add_resource. unfold_prog.
  destruct (sv_add_resource sv s f) as [s' [r|e]]; [|done].
  by destruct (String.eqb (default "unknown" (ar_status r)) "success").
Qed.

(** The loop submits the files in their order, and all of them when it
    runs to its end. *)
Lemma add_dir_loop_submits c files : ∀ counts s,
  let r := for_fold files counts (add_dir_body sv c) s in
  submitted (run_trace r) `prefix_of` files
  ∧ (∀ x, run_outcome r = Ret x → submitted (run_trace r) = files).
Proof.
  induction files as [|f files IH]; intros counts s r; subst r.
  - split; [by exists []|done].
  - cbn [for_fold]. unfold bind.
    pose proof (add_dir_body_submits c f counts s) as Hf.
    destruct (add_dir_body sv c f counts s) as [[s1 t1] [counts'|e|code]];
      unfold run_trace, run_outcome in *; simpl in *.
    + destruct (IH counts' s1) as [Hpre Hall].
      destruct (for_fold files counts' (add_dir_body sv c) s1)
        as [[s2 t2] o2]; unfold run_trace, run_outcome in *; simpl in *.
      unfold submitted in *. rewrite omap_app, Hf. simpl. split.
      * by apply prefix_cons.
      * intros x Hx. f_equal. by eapply Hall.
    + rewrite Hf. split; [by exists files|done].
    + rewrite Hf. split; [by exists files|done].
Qed.

(** The run of the [try] block of [cmd_add_dir], by the way the loop and
    the wait end. *)
Lemma add_dir_try_run c files s :
  add_dir_try sv c files s =
  match for_fold files (0, 0) (add_dir_body sv c) s with
  | (s2, t2, Ret (sc, fc)) =>
      let line := Stdout (PyStr.nl +:+ "⏳ Processing " +:+ pretty sc
                          +:+ " files...") in
      match sv_wait_processed sv s2 with
      | (s3, Ok _) =>
          (s3, t2 ++ [line; WaitProcessed (Ok ());
                      Stdout ("✅ Done. Success: " +:+ pretty sc
                              +:+ ", Failed: " +:+ pretty fc)], Ret ())
      | (s3, Err e) => (s3, t2 ++ [line; WaitProcessed (Err e)], Raise e)
      end
  | (s2, t2, Raise e) => (s2, t2, Raise e)
  | (s2, t2, Exit code) => (s2, t2, Exit code)
  end.
Proof.
  unfold add_dir_try, wait_processed. unfold_prog.
  destruct (for_fold files (0, 0) (add_dir_body sv c) s)
    as [[s2 t2] [[sc fc]|e|code]]; [|done..].
  by destruct (sv_wait_processed sv s2) as [s3 [[]|e]].
Qed.

Lemma add_dir_try_submits c files s :
  let t := run_trace (add_dir_try sv c files s) in
  submitted t `prefix_of` files
  ∧ ((∃ a, WaitProcessed a ∈ t) → submitted t = files).
Proof.
  rewrite add_dir_try_run.
  destruct (add_dir_loop_submits c files (0, 0) s) as [Hpre Hall].
  assert (Hquiet : Forall (λ e, ∀ a, e ≠ WaitProcessed a)
            (run_trace (for_fold files (0, 0) (add_dir_body sv c) s))).
  { apply emits_for_fold. intros f' counts'. by apply add_dir_body_emits. }
  destruct (for_fold files (0, 0) (add_dir_body sv c) s)
    as [[s2 t2] [[sc fc]|e|code]];
    unfold run_trace, run_outcome in *; simpl in *.
  - specialize (Hall _ eq_refl).
    destruct (sv_wait_processed sv s2) as [s3 [[]|e]]; simpl;
      unfold submitted in *; rewrite omap_app, Hall; simpl;
      by rewrite app_nil_r.
  - split; [done|]. intros [a Ha]. rewrite Forall_forall in Hquiet.
    by destruct (Hquiet _ Ha a).
  - split; [done|]. intros [a Ha]. rewrite Forall_forall in Hquiet.
    by destruct (Hquiet _ Ha a).
Qed.

(** C9: [add-dir] submits files in the sorted order of the paths that the
    glob expanded to: in every run the submitted paths are an initial part
    of the sorted list, one call after the other; they are the whole list
    when the run reaches the wait for the processing; the sorted list is
    in lexicographic order, holds the paths found, and is the same for any
    other order in which the same paths could have been found. *)
Theorem add_dir_submission_order ddir dir_path pattern s :
  let found := glob w (search_path dir_path pattern) in
  let r := main sv w (Args ddir (Some (AddDir dir_path pattern))) s in
  submitted (run_trace r) `prefix_of` sorted found
  ∧ ((∃ a, WaitProcessed a ∈ run_trace r) →
     submitted (run_trace r) = sorted found)
  ∧ Sorted str_le (sorted found)
  ∧ sorted found ≡ₚ found
  ∧ (∀ found', found' ≡ₚ found → sorted found' = sorted found).
Proof.
  intros found r.
  assert (Hrun : submitted (run_trace r) `prefix_of` sorted found
                 ∧ ((∃ a, WaitProcessed a ∈ run_trace r) →
                    submitted (run_trace r) = sorted found)).
  { subst r. unfold main, command, data_dir.
    rewrite cmd_add_dir_unfold. fold found. cbv zeta.
    destruct (sorted found) as [|f fs] eqn:Hfiles.
    { split; [by exists []|done]. }
    rewrite <- Hfiles. clear Hfiles. generalize (sorted found) as files.
    intros files.
    destruct (get_client_cases ddir s)
      as [[s1 Hget]|(s1 & t1 & o & Hget & Hno & Hall)].
    - rewrite (with_client_acquired (λ client, add_dir_try sv client files)
                 _ _ _ _ _ Hget).
      destruct (add_dir_try_submits (Client ddir) files s1) as [Hpre Hall].
      destruct (add_dir_try sv (Client ddir) files s1) as [[s2 t2] o2].
      unfold closing. destruct (sv_close sv s2) as [s3 rc].
      unfold run_trace in *; simpl in *.
      unfold submitted in *. rewrite omap_app; simpl. rewrite app_nil_r.
      split; [done|]. intros [a Ha]. apply Hall. exists a.
      rewrite !elem_of_cons, elem_of_app, !elem_of_cons, elem_of_nil in Ha.
      by destruct Ha as [[=]|[[=]|[[=]|[[=]|[Ha|[[=]|[]]]]]]].
    - assert (Hrun : (client ← get_client sv w ddir;
                      try_finally (add_dir_try sv client files)
                        (close sv client)) s = (s1, t1,
                match o with Ret _ => Ret () | Raise e => Raise e
                         | Exit code => Exit code end)).
      { unfold mbind, M_bind, bind. rewrite Hget.
        destruct o as [c|e|code]; [by destruct (Hno c)|done..]. }
      rewrite Hrun. unfold run_trace; simpl.
      assert (Hsub : submitted t1 = []).
      { apply submitted_none. eapply Forall_impl; [exact Hall|].
        by intros [] He p' r'. }
      unfold submitted in *. simpl. rewrite Hsub.
      split; [by exists files|].
      intros [a Ha]. exfalso. rewrite Forall_forall in Hall.
      rewrite elem_of_cons in Ha. destruct Ha as [[=]|Ha].
      by apply Hall in Ha. }
  destruct Hrun as [Hpre Hall].
  split; [done|]. split; [done|]. split; [apply sorted_Sorted|].
  split; [apply sorted_perm|]. intros found'. apply sorted_of_perm.
Qed.

(** ** Python strings *)

Lemma append_cons c a b : String c a +:+ b = String c (a +:+ b).
Proof. reflexivity. Qed.

Lemma append_nil_l b : "" +:+ b = b.
Proof. reflexivity. Qed.

Lemma append_nil_r a : a +:+ "" = a.
Proof. induction a as [|c a IH]; [done|]. by rewrite append_cons, IH. Qed.

Lemma append_assoc a b c : (a +:+ b) +:+ c = a +:+ (b +:+ c).
Proof.
  induction a as [|x a IH]; [done|]. by rewrite !append_cons, IH.
Qed.

Lemma length_append a b :
  String.length (a +:+ b) = String.length a + String.length b.
Proof.
  induction a as [|c a IH]; [done|].
  rewrite append_cons. simpl. by rewrite IH.
Qed.



Lemma slice_to_short n s : (PyStr.len s ≤ n)%nat → PyStr.slice_to n s = s.
Proof.
  revert n. induction s as [|b s IH]; intros n; simpl; [done|].
  destruct (PyStr.is_continuation b); intros Hlen.
  - f_equal. apply IH. lia.
  - destruct n as [|n]; [lia|]. f_equal. apply IH. lia.
Qed.


Lemma space1_low b : PyStr.space1 b = true → (nat_of_ascii b ≤ 32)%nat.
Proof.
  unfold PyStr.space1.
  rewrite orb_true_iff, !andb_true_iff, !Nat.leb_le. lia.
Qed.

Lemma space2_lead b1 b2 :
  PyStr.space2 b1 b2 = true → nat_of_ascii b1 = 194.
Proof.
  unfold PyStr.space2, PyStr.byte_is.
  rewrite andb_true_iff, Nat.eqb_eq. tauto.
Qed.

Lemma space3_lead b1 b2 b3 :
  PyStr.space3 b1 b2 b3 = true → (225 ≤ nat_of_ascii b1 ≤ 227)%nat.
Proof.
  unfold PyStr.space3, PyStr.byte_is.
  rewrite !orb_true_iff, !andb_true_iff, !Nat.eqb_eq. lia.
Qed.

(** The three forms of a white-space character exclude each other. *)
Lemma space2_not_space1 b1 b2 :
  PyStr.space2 b1 b2 = true → PyStr.space1 b1 = false.
Proof.
  intros H2%space2_lead. destruct (PyStr.space1 b1) eqn:H1; [|done].
  apply space1_low in H1. lia.
Qed.

Lemma space3_not_space1 b1 b2 b3 :
  PyStr.space3 b1 b2 b3 = true → PyStr.space1 b1 = false.
Proof.
  intros H3%space3_lead. destruct (PyStr.space1 b1) eqn:H1; [|done].
  apply space1_low in H1. lia.
Qed.

Lemma space3_not_space2 b1 b2 b3 b :
  PyStr.space3 b1 b2 b3 = true → PyStr.space2 b1 b = false.
Proof.
  intros H3%space3_lead. destruct (PyStr.space2 b1 b) eqn:H2; [|done].
  apply space2_lead in H2. lia.
Qed.

(** A white-space character is dropped by [lstrip]. *)
Lemma lstrip_space h x :
  PyStr.space_char h = true → PyStr.lstrip (h +:+ x) = PyStr.lstrip x.
Proof.
  destruct h as [|b1 [|b2 [|b3 [|b4 h]]]]; try done; simpl PyStr.space_char;
    intros Hh; rewrite ?append_cons, ?append_nil_l; cbn [PyStr.lstrip].
  - by rewrite Hh.
  - by rewrite (space2_not_space1 _ _ Hh), Hh.
  - by rewrite (space3_not_space1 _ _ _ Hh), (space3_not_space2 _ _ _ b2 Hh), Hh.
Qed.

(** Either a string begins with no white-space character, and [lstrip]
    leaves it, or it begins with one, which [lstrip] drops. *)
Lemma lstrip_cases s :
  (PyStr.lstrip s = s ∧ ∀ h t, s = h +:+ t → PyStr.space_char h = false)
  ∨ (∃ h t, s = h +:+ t ∧ PyStr.space_char h = true
            ∧ PyStr.lstrip s = PyStr.lstrip t).
Proof.
  assert (Hshape : ∀ h, PyStr.space_char h = true →
            (∃ c1, h = String c1 "" ∧ PyStr.space1 c1 = true)
            ∨ (∃ c1 c2, h = String c1 (String c2 "")
                        ∧ PyStr.space2 c1 c2 = true)
            ∨ (∃ c1 c2 c3, h = String c1 (String c2 (String c3 ""))
                           ∧ PyStr.space3 c1 c2 c3 = true)).
  { intros [|c1 [|c2 [|c3 [|c4 h]]]] Hh; try done; eauto 10. }
  assert (Hno : ∀ s, (∀ h t, s = h +:+ t → PyStr.space_char h = true → False) →
                     ∀ h t, s = h +:+ t → PyStr.space_char h = false).
  { intros s' Hs h t E. destruct (PyStr.space_char h) eqn:Hh; [|done].
    by destruct (Hs h t E Hh). }
  destruct s as [|b1 s1].
  { left. split; [done|]. apply Hno. by intros [|] t. }
  destruct (PyStr.space1 b1) eqn:H1.
  { right. exists (String b1 ""), s1. simpl. by rewrite H1. }
  destruct s1 as [|b2 s2].
  { left. simpl. rewrite H1. split; [done|]. apply Hno. intros h t E Hh.
    destruct (Hshape h Hh) as [(c1 & -> & Hc)|[(c1 & c2 & -> & Hc)
                              |(c1 & c2 & c3 & -> & Hc)]];
      rewrite ?append_cons in E; simplify_eq; congruence. }
  destruct (PyStr.space2 b1 b2) eqn:H2.
  { right. exists (String b1 (String b2 "")), s2. simpl. by rewrite H1, H2. }
  destruct s2 as [|b3 s3].
  { left. simpl. rewrite H1, H2. split; [done|]. apply Hno. intros h t E Hh.
    destruct (Hshape h Hh) as [(c1 & -> & Hc)|[(c1 & c2 & -> & Hc)
                              |(c1 & c2 & c3 & -> & Hc)]];
      rewrite ?append_cons in E; simplify_eq; congruence. }
  destruct (PyStr.space3 b1 b2 b3) eqn:H3.
  { right. exists (String b1 (String b2 (String b3 ""))), s3. simpl.
    by rewrite H1, H2, H3. }
  left. simpl. rewrite H1, H2, H3. split; [done|]. apply Hno. intros h t E Hh.
  destruct (Hshape h Hh) as [(c1 & -> & Hc)|[(c1 & c2 & -> & Hc)
                            |(c1 & c2 & c3 & -> & Hc)]];
    rewrite ?append_cons in E; simplify_eq; congruence.
Qed.

Lemma space_char_nonempty h : PyStr.space_char h = true → (0 < String.length h)%nat.
Proof. destruct h; [done|simpl; lia]. Qed.

(** Induction along the white-space characters that a string begins
    with. *)
Lemma space_induction (P : string → Prop) :
  (∀ s, (∀ h t, s = h +:+ t → PyStr.space_char h = true → P t) → P s) →
  ∀ s, P s.
Proof.
  intros Hstep s.
  remember (String.length s) as n eqn:Hn. revert s Hn.
  induction n as [n IH] using lt_wf_ind. intros s ->.
  apply Hstep. intros h t -> Hh. apply (IH (String.length t)); [|done].
  rewrite length_append. apply space_char_nonempty in Hh. lia.
Qed.

Lemma blank_space h t :
  PyStr.space_char h = true → PyStr.blank (h +:+ t) = PyStr.blank t.
Proof. intros Hh. unfold PyStr.blank. by rewrite lstrip_space. Qed.


Lemma rstrip_split s :
  ∃ r, s = PyStr.rstrip s +:+ r ∧ PyStr.blank r = true.
Proof.
  induction s as [|b s (r & Hs & Hr)]; [by exists ""|].
  cbn [PyStr.rstrip]. destruct (PyStr.blank (String b s)) eqn:Hb.
  - by exists (String b s).
  - exists r. by rewrite append_cons, <- Hs.
Qed.

Lemma lstrip_no_leading s h t :
  PyStr.lstrip s = h +:+ t → PyStr.space_char h = false.
Proof.
  revert h t. induction s as [s IH] using space_induction. intros h t.
  destruct (lstrip_cases s) as [[Hs Hno]|(h' & t' & -> & Hh & Hs)].
  - rewrite Hs. apply Hno.
  - rewrite Hs. by apply (IH h' t').
Qed.

Lemma rstrip_no_trailing s : ∀ t h,
  PyStr.rstrip s = t +:+ h → PyStr.space_char h = false.
Proof.
  induction s as [|b s IH]; intros t h.
  - destruct t, h; done.
  - cbn [PyStr.rstrip]. destruct (PyStr.blank (String b s)) eqn:Hb.
    + destruct t, h; done.
    + destruct t as [|c t].
      * rewrite append_nil_l. intros Hh.
        destruct (PyStr.space_char h) eqn:Hsp; [|done].
        destruct (rstrip_split s) as (r & Hs & Hr).
        assert (String b s = h +:+ r) as Heq.
        { rewrite <- Hh, append_cons. by f_equal. }
        rewrite Heq, blank_space, Hr in Hb; done.
      * rewrite append_cons. intros [= _ Hs]. by apply (IH t h).
Qed.


Lemma replace_high b :
  (128 ≤ nat_of_ascii b)%nat →
  (if Ascii.eqb b PyStr.newline then PyStr.space else b) = b.
Proof.
  intros Hb. destruct (Ascii.eqb_spec b PyStr.newline) as [->|_]; [|done].
  change (nat_of_ascii PyStr.newline) with 10 in Hb. lia.
Qed.

Lemma space2_high b1 b2 :
  PyStr.space2 b1 b2 = true →
  (128 ≤ nat_of_ascii b1)%nat ∧ (128 ≤ nat_of_ascii b2)%nat.
Proof.
  unfold PyStr.space2, PyStr.byte_is.
  rewrite andb_true_iff, orb_true_iff, !Nat.eqb_eq. lia.
Qed.

Lemma space3_high b1 b2 b3 :
  PyStr.space3 b1 b2 b3 = true →
  (128 ≤ nat_of_ascii b1)%nat ∧ (128 ≤ nat_of_ascii b2)%nat
  ∧ (128 ≤ nat_of_ascii b3)%nat.
Proof.
  unfold PyStr.space3, PyStr.byte_is. cbv zeta.
  repeat first [rewrite orb_true_iff | rewrite andb_true_iff].
  rewrite !Nat.eqb_eq, !Nat.leb_le. lia.
Qed.

(** Replacing newlines by spaces keeps a white-space character one. *)
Lemma space_replace h :
  PyStr.space_char h = true →
  PyStr.space_char (PyStr.replace PyStr.newline PyStr.space h) = true.
Proof.
  destruct h as [|b1 [|b2 [|b3 [|b4 h]]]]; try done; simpl; intros Hh.
  - destruct (Ascii.eqb_spec b1 PyStr.newline) as [->|_]; done.
  - destruct (space2_high _ _ Hh) as [H1 H2].
    by rewrite !replace_high.
  - destruct (space3_high _ _ _ Hh) as (H1 & H2 & H3).
    by rewrite !replace_high.
Qed.

Lemma replace_append old new a b :
  PyStr.replace old new (a +:+ b)
  = PyStr.replace old new a +:+ PyStr.replace old new b.
Proof.
  induction a as [|c a IH]; [done|].
  rewrite append_cons. simpl. by rewrite append_cons, IH.
Qed.

Lemma blank_replace s :
  PyStr.blank s = true →
  PyStr.blank (PyStr.replace PyStr.newline PyStr.space s) = true.
Proof.
  induction s as [s IH] using space_induction.
  destruct (lstrip_cases s) as [[Hs _]|(h & t & -> & Hh & Hs)].
  - unfold PyStr.blank at 1. rewrite Hs. by destruct s.
  - rewrite blank_space by done. intros Ht.
    rewrite replace_append, blank_space by by apply space_replace.
    by apply (IH h t).
Qed.

Lemma blank_white_space s : PyStr.blank s = true → white_space s.
Proof.
  induction s as [s IH] using space_induction.
  destruct (lstrip_cases s) as [[Hs _]|(h & t & -> & Hh & Hs)].
  - unfold PyStr.blank. rewrite Hs. destruct s; [constructor|done].
  - rewrite blank_space by done. intros Ht.
    constructor; [done|]. by apply (IH h t).
Qed.

Lemma white_space_blank s : white_space s → PyStr.blank s = true.
Proof. induction 1 as [|h t Hh _ IH]; [done|]. by rewrite blank_space. Qed.

Lemma white_space_last s :
  white_space s → s ≠ "" →
  ∃ t h, s = t +:+ h ∧ PyStr.space_char h = true.
Proof.
  induction 1 as [|h t Hh Ht IH]; [done|]. intros _.
  destruct (decide (t = "")) as [->|Hne].
  - exists "", h. by rewrite append_nil_r.
  - destruct (IH Hne) as (t' & h' & -> & Hh').
    exists (h +:+ t'), h'. by rewrite append_assoc.
Qed.

Lemma lstrip_blank s : PyStr.blank s = true → PyStr.lstrip s = "".
Proof. unfold PyStr.blank. by destruct (PyStr.lstrip s). Qed.

Lemma replace_absent old new s :
  PyStr.contains old s = false → PyStr.replace old new s = s.
Proof.
  induction s as [|c s IH]; [done|]. simpl.
  intros [Hc Hs]%orb_false_iff. by rewrite Hc, IH.
Qed.

(** A string with no white-space character at either end is left as it
    is by [strip]. *)
Lemma strip_fixed s :
  (∀ h t, s = h +:+ t → PyStr.space_char h = false) →
  (∀ t h, s = t +:+ h → PyStr.space_char h = false) →
  PyStr.strip s = s.
Proof.
  intros Hl Hr. unfold PyStr.strip.
  assert (PyStr.lstrip s = s) as ->.
  { destruct (lstrip_cases s) as [[Hs _]|(h & t & Hs & Hh & _)]; [done|].
    by rewrite (Hl h t Hs) in Hh. }
  destruct (rstrip_split s) as (r & Hs & Hb).
  destruct (decide (r = "")) as [->|Hne].
  - by rewrite append_nil_r in Hs.
  - destruct (white_space_last r (blank_white_space _ Hb) Hne)
      as (t & h & -> & Hh).
    rewrite <- append_assoc in Hs. by rewrite (Hr _ _ Hs) in Hh.
Qed.

(** What [strip] returns has no white-space character at either end. *)
Lemma strip_trimmed s :
  (∀ h t, PyStr.strip s = h +:+ t → PyStr.space_char h = false)
  ∧ (∀ t h, PyStr.strip s = t +:+ h → PyStr.space_char h = false).
Proof.
  unfold PyStr.strip. split.
  - intros h t Hp.
    destruct (rstrip_split (PyStr.lstrip s)) as (r & Hr & _).
    rewrite Hp, append_assoc in Hr. by apply lstrip_no_leading in Hr.
  - apply rstrip_no_trailing.
Qed.



(** ** [search] *)

(** One iteration: whatever the fetch of the content does, the block of
    the result is printed and the loop goes on. *)
Lemma search_body_run c ir s :
  search_body sv c ir s =
  ((sv_read sv s (r_uri ir.2)).1,
   result_block ir (sv_read sv s (r_uri ir.2)).2, Ret ()).
Proof.
  destruct ir as [i r]. unfold search_body, client_read, result_block.
  unfold_prog. simpl.
  destruct (sv_read sv s (r_uri r)) as [s' [[[|ch content]|]|e]]; done.
Qed.

Lemma search_loop_run c irs : ∀ s,
  ∃ answers s',
    List.length answers = List.length irs
    ∧ for_each irs (search_body sv c) s =
      (s', List.concat (zip_with result_block irs answers), Ret ()).
Proof.
  unfold for_each.
  induction irs as [|ir irs IH]; intros s.
  - by exists [], s.
  - cbn [for_fold]. unfold bind. rewrite search_body_run.
    destruct (IH (sv_read sv s (r_uri ir.2)).1) as (answers & s' & Hlen & ->).
    exists ((sv_read sv s (r_uri ir.2)).2 :: answers), s'.
    split; [simpl; by rewrite Hlen|done].
Qed.




(** ** The configuration file *)

Lemma append_nonempty a c b : String.eqb (a +:+ String c b) "" = false.
Proof. by destruct a. Qed.

Lemma expanduser_default :
  OsPath.expanduser w "~/.openviking/ov.conf" = default_config w.
Proof.
  unfold OsPath.expanduser, default_config, home. simpl.
  destruct (environ w !! "HOME") as [h|]; [by rewrite append_nonempty|].
  destruct (pw_dir w) as [h|]; [by rewrite append_nonempty|done].
Qed.

Lemma config_file_resolved : config_file w = resolved_config w.
Proof.
  unfold config_file, resolved_config. rewrite expanduser_default.
  by destruct (environ w !! "OPENVIKING_CONFIG_FILE").
Qed.

Lemma bind_emit_run {A} ev (k : unit → M S A) s :
  (emit ev ≫= k) s = let '(s', t, o) := k () s in (s', ev :: t, o).
Proof. unfold_prog. by destruct (k () s) as [[s' t] o]. Qed.

Lemma bind_query_run {A B} (a : A) ev (k : A → M S B) s :
  (query a ev ≫= k) s = let '(s', t, o) := k a s in (s', ev a :: t, o).
Proof. unfold_prog. by destruct (k a s) as [[s' t] o]. Qed.

(** C8: the configuration file path of every invocation is the value of
    OPENVIKING_CONFIG_FILE when the variable is set, and otherwise
    [.openviking/ov.conf] under the home directory of the user.  It is the
    path whose existence the client factory tests, first thing once the
    library is imported, and the path that [info] prints and tests. *)
Theorem config_path_resolution ddir s :
  config_file w =
    match environ w !! "OPENVIKING_CONFIG_FILE" with
    | Some v => v
    | None =>
        match home w with
        | Some h => PyStr.rstrip_char "/" h +:+ "/.openviking/ov.conf"
        | None => "~/.openviking/ov.conf"
        end
    end
  ∧ match openviking w with
    | None => True
    | Some _ =>
        ∃ rest, run_trace (get_client sv w ddir s)
                = PathExists (resolved_config w)
                    (path_exists w (resolved_config w)) :: rest
    end
  ∧ ∃ rest, run_trace (main sv w (Args ddir (Some Info)) s)
            = Stdout ("OpenViking Status" +:+ PyStr.nl)
              :: Stdout ("  Config: " +:+ resolved_config w)
              :: PathExists (resolved_config w)
                   (path_exists w (resolved_config w))
              :: rest.
Proof.
  split; [apply config_file_resolved|]. split.
  - rewrite get_client_unfold, <- config_file_resolved. unfold factory_failure.
    destruct (openviking w); [|done].
    destruct (path_exists w (config_file w)); [|by eexists].
    destruct (sv_construct sv s ddir) as [s1 [[]|e]]; [|by eexists].
    destruct (sv_initialize sv s1) as [s2 [[]|e]]; by eexists.
  - unfold main, command, data_dir, cmd_info, print, os_path_exists.
    rewrite <- config_file_resolved. cbv zeta.
    rewrite (bind_emit_run (Stdout ("OpenViking Status" +:+ PyStr.nl))),
      (bind_emit_run (Stdout ("  Config: " +:+ config_file w))),
      bind_query_run.
    match goal with
    | |- context [(?m ≫= ?k) s] => destruct ((m ≫= k) s) as [[s' t'] o']
    end.
    by exists t'.
Qed.

(** ** More on the client factory *)

(** X1: for every invocation that reaches the client factory, when the
    library cannot be imported the run prints the installation hint on the
    error stream and ends in [sys.exit(1)]; the configuration file is not
    even looked for, no client is constructed and the service is left as
    it was. *)
Theorem missing_library_is_fatal ddir cmd s :
  reaches_factory w cmd = true →
  openviking w = None →
  let r := main sv w (Args ddir (Some cmd)) s in
  run_trace r =
    before_factory w cmd
    ++ [Stderr "ERROR: openviking not installed. Run: pip install openviking"]
  ∧ run_outcome r = Exit 1
  ∧ run_state r = s
  ∧ fatal_before_client r.
Proof.
  intros Hreach Hlib r.
  assert (Hget : get_client sv w ddir s = (s, factory_failure w, Exit 1))
    by (by rewrite get_client_unfold, Hlib).
  assert (Hr : r = (s, before_factory w cmd ++ factory_failure w, Exit 1)).
  { subst r.
    destruct cmd; try discriminate Hreach;
      unfold main, command, data_dir, before_factory;
      try (unfold cmd_add, cmd_search, cmd_ls, cmd_abstract, cmd_overview,
             cmd_read; by rewrite (with_client_exit _ _ _ _ _ _ Hget)).
    rewrite cmd_add_dir_unfold. simpl in Hreach |- *.
    destruct (glob w (search_path dir_path pattern)) as [|x xs]; [done|].
    destruct (sorted_cons x xs) as (f & fs & Hs). rewrite Hs.
    by rewrite (with_client_exit _ _ _ _ _ _ Hget). }
  rewrite Hr. split.
  { unfold run_trace, factory_failure. simpl. by rewrite Hlib. }
  do 2 (split; [done|]).
  apply factory_failure_fatal. destruct cmd; by repeat constructor.
Qed.

Lemma method_after_prefix (l1 l2 pre post : trace) e :
  Forall (λ e, is_method_call e = false) l1 →
  is_method_call e = true →
  pre ++ e :: post = l1 ++ l2 →
  ∃ k, pre = l1 ++ k.
Proof.
  intros Hl1 He. revert pre.
  induction Hl1 as [|x l1 Hx _ IH]; intros pre Heq; [by exists pre|].
  destruct pre as [|y pre]; simpl in Heq.
  - injection Heq as -> _. congruence.
  - injection Heq as -> Heq. destruct (IH _ Heq) as [k ->]. by exists k.
Qed.

Lemma refusal_not_method t :
  Forall refusal_event t → Forall (λ e, is_method_call e = false) t.
Proof. intros H. eapply Forall_impl; [exact H|]. by intros []. Qed.

(** In a handler of the shared shape, a method of the client is called
    only after the factory has constructed and initialised it. *)
Lemma handler_calls_after_init {A} (body : client → M S A) ddir s
    pre e post :
  run_trace ((client ← get_client sv w ddir;
              try_finally (body client) (close sv client)) s)
  = pre ++ e :: post →
  is_method_call e = true →
  ∃ k, pre = factory_success w ddir ++ k.
Proof.
  intros Heq He.
  destruct (get_client_cases ddir s)
    as [[s1 Hget]|(s1 & t1 & o & Hget & Hno & Hall)].
  - rewrite (with_client_acquired _ _ _ _ _ _ Hget) in Heq.
    destruct (body (Client ddir) s1) as [[s2 t2] o2].
    unfold closing in Heq. destruct (sv_close sv s2) as [s3 rc].
    unfold run_trace in Heq; cbn [fst snd] in Heq.
    rewrite <- app_assoc in Heq. symmetry in Heq.
    eapply method_after_prefix; [|exact He|exact Heq].
    by repeat constructor.
  - exfalso. revert Heq. unfold mbind, M_bind, bind. rewrite Hget.
    assert (Hany : ∀ o' : outcome A,
              run_trace (s1, t1, o') = pre ++ e :: post → False).
    { intros o' Heq. unfold run_trace in Heq; simpl in Heq.
      apply refusal_not_method in Hall. rewrite Heq in Hall.
      apply Forall_app in Hall as [_ Hall].
      apply Forall_cons in Hall as [Hall _]. congruence. }
    destruct o as [c|e'|code]; [by destruct (Hno c)|apply Hany..].
Qed.

(** ** [info] *)

(** Reading the configuration file never fails: whatever the file holds,
    the display returns, after the one attempt to load it and lines on
    standard output only. *)
Lemma show_config_steady (p : string) (s : S) :
  ∃ t, show_config w p s = (s, LoadJson p (load_json w p) :: t, Ret ())
       ∧ Forall (λ e, ∃ text, e = Stdout text) t.
Proof.
  unfold show_config, get, call. unfold_prog.
  destruct (load_json w p) as [cfg|e]; simpl;
    [|eexists; split; [reflexivity|repeat constructor; eauto]].
  repeat match goal with
         | |- context [py_get ?d ?k ?v] =>
             destruct (py_get d k v); simpl;
             [|eexists; split; [reflexivity|repeat constructor; eauto]]
         end.
  eexists; split; [reflexivity|repeat constructor; eauto].
Qed.

(** The run of [cmd_info]: the header, the display of the configuration
    file when it exists, and the line on the library. *)
Lemma cmd_info_run ddir (s : S) :
  cmd_info (S:=S) w ddir s =
  (s,
   info_header w ddir
   ++ (if path_exists w (config_file w)
       then run_trace (show_config w (config_file w) s) else [])
   ++ [version_line w],
   Ret ()).
Proof.
  unfold cmd_info, info_header, version_line, os_path_exists.
  destruct (show_config_steady (config_file w) s) as (t & Hshow & _).
  unfold_prog. unfold run_trace.
  destruct (path_exists w (config_file w)); rewrite ?Hshow; simpl;
    destruct (openviking w) as [[v|]|]; simpl; by rewrite <- ?app_assoc.
Qed.

Lemma cmd_info_events ddir (s : S) :
  Forall info_event (run_trace (cmd_info (S:=S) w ddir s)).
Proof.
  rewrite cmd_info_run. unfold run_trace; simpl.
  repeat (apply Forall_cons; split; [done|]).
  apply Forall_app. split.
  2:{ unfold version_line. destruct (openviking w) as [[v|]|];
        by repeat constructor. }
  destruct (path_exists w (config_file w)); [|done].
  destruct (show_config_steady (config_file w) s) as (t & -> & Ht).
  simpl. apply Forall_cons. split; [done|].
  eapply Forall_impl; [exact Ht|]. by intros e [text ->].
Qed.

(** X4: nothing that the configuration file holds makes [info] fail.
    The part of the handler that reads the file (its [try] statement)
    always returns: when the file cannot be opened, is not JSON, or
    decodes to a value of any shape, with sections that are dicts or not,
    the exception is caught there.  The service is left as it was, the
    one event besides lines on standard output is the load of the file,
    and nothing goes to the error stream. *)
Theorem config_display_never_fails (p : string) (s : S) :
  let r := show_config w p s in
  run_outcome r = Ret ()
  ∧ run_state r = s
  ∧ (∃ t, run_trace r = LoadJson p (load_json w p) :: t
          ∧ Forall (λ e, ∃ text, e = Stdout text) t)
  ∧ Forall (λ e, is_client_event e = false ∧ is_stderr e = false)
      (run_trace r).
Proof.
  intros r. subst r.
  destruct (show_config_steady p s) as (t & -> & Ht).
  unfold run_outcome, run_state, run_trace; simpl.
  do 2 (split; [done|]). split; [by exists t|].
  apply Forall_cons. split; [done|].
  eapply Forall_impl; [exact Ht|]. by intros e [text ->].
Qed.

(** X5: [info] opens the configuration file exactly when the resolved
    path exists, and it is that path that it loads: a load in the trace is
    the load of the resolved path, with the path existing; and when the
    path exists the load is in the trace. *)
Theorem info_loads_config_iff_exists ddir s :
  let r := main sv w (Args ddir (Some Info)) s in
  (∀ p a, LoadJson p a ∈ run_trace r →
          p = config_file w ∧ a = load_json w (config_file w)
          ∧ path_exists w (config_file w) = true)
  ∧ (path_exists w (config_file w) = true →
     LoadJson (config_file w) (load_json w (config_file w)) ∈ run_trace r).
Proof.
  intros r. subst r. unfold main, command, data_dir.
  rewrite cmd_info_run. unfold run_trace; simpl.
  destruct (show_config_steady (config_file w) s) as (t & Hshow & Ht).
  rewrite Hshow; simpl. split.
  - intros p a Hin.
    rewrite !elem_of_cons, elem_of_app, elem_of_cons, elem_of_nil in Hin.
    destruct Hin as [[=]|[[=]|[[=]|[[=]|[[=]|[[=]|[[=]|[[=]|[[=]|Hin]]]]]]]]].
    destruct Hin as [Hin|[Hin|[]]].
    + destruct (path_exists w (config_file w)); [|by apply elem_of_nil in Hin].
      apply elem_of_cons in Hin as [[= -> ->]|Hin]; [done|].
      rewrite Forall_forall in Ht. by destruct (Ht _ Hin).
    + unfold version_line in Hin. by destruct (openviking w) as [[v|]|].
  - intros ->. rewrite !elem_of_cons, elem_of_app, elem_of_cons. tauto.
Qed.

(** X6: when the configuration file exists but cannot be loaded, or holds
    something that is not a dict, [info] prints one line "Config parse
    error" with the message of the exception, no field line, and goes on
    to the line on the library. *)
Theorem info_parse_error ddir s msg :
  path_exists w (config_file w) = true →
  load_failure (load_json w (config_file w)) = Some msg →
  let r := main sv w (Args ddir (Some Info)) s in
  run_trace r =
    info_header w ddir
    ++ [LoadJson (config_file w) (load_json w (config_file w));
        Stdout (PyStr.nl +:+ "  Config parse error: " +:+ msg)]
    ++ [version_line w]
  ∧ run_outcome r = Ret ().
Proof.
  intros Hex Hfail r. subst r. unfold main, command, data_dir.
  rewrite cmd_info_run, Hex. split; [|done].
  unfold run_trace; simpl. do 10 f_equal.
  unfold show_config, get, call. unfold_prog.
  destruct (load_json w (config_file w)) as [cfg|e]; simpl in *.
  - destruct cfg; simpl in *; try discriminate Hfail;
      by injection Hfail as <-.
  - by injection Hfail as <-.
Qed.

(** X7: when the configuration file holds a dict whose sections
    [embedding], [embedding.dense] and [vlm] are dicts or are absent,
    [info] prints the four fields, each with its value or, when the key is
    absent at any level, with its placeholder ("not set", "auto"). *)
Theorem info_shows_fields ddir s kvs embedding dense vlm :
  path_exists w (config_file w) = true →
  load_json w (config_file w) = Ok (JDict kvs) →
  config_section kvs "embedding" = Some embedding →
  config_section embedding "dense" = Some dense →
  config_section kvs "vlm" = Some vlm →
  let r := main sv w (Args ddir (Some Info)) s in
  run_trace r =
    info_header w ddir
    ++ [LoadJson (config_file w) (Ok (JDict kvs));
        Stdout (PyStr.nl +:+ "  Embedding model: "
                +:+ config_field w dense "model" "not set");
        Stdout ("  Embedding dim: "
                +:+ config_field w dense "dimension" "auto");
        Stdout ("  VLM model: " +:+ config_field w vlm "model" "not set");
        Stdout ("  API base: " +:+ config_field w dense "api_base" "not set")]
    ++ [version_line w].
Proof.
  intros Hex Hload Hemb Hdense Hvlm r. subst r. unfold main, command, data_dir.
  rewrite cmd_info_run, Hex.
  unfold run_trace; simpl. do 10 f_equal.
  unfold config_section in *.
  unfold show_config, get, call, py_get. unfold_prog. rewrite Hload. simpl.
  destruct (default (JDict []) (assoc "embedding" kvs)); try discriminate Hemb.
  injection Hemb as ->. simpl.
  destruct (default (JDict []) (assoc "dense" embedding));
    try discriminate Hdense.
  injection Hdense as ->. simpl.
  destruct (default (JDict []) (assoc "vlm" kvs)); try discriminate Hvlm.
  injection Hvlm as ->. done.
Qed.

(** X2: in every run, a method of the client is called only after the
    factory has constructed the client on the data directory of the
    command line and [initialize] has completed. *)
Theorem no_call_before_initialize a s pre e post :
  run_trace (main sv w a s) = pre ++ e :: post →
  is_method_call e = true →
  Construct (data_dir a) (Ok ()) ∈ pre ∧ Initialize (Ok ()) ∈ pre.
Proof.
  intros Heq He.
  assert (Hquiet : ∀ t, Forall (λ e, is_method_call e = false) t →
                        t = pre ++ e :: post → False).
  { intros t Ht ->. apply Forall_app in Ht as [_ Ht].
    apply Forall_cons in Ht as [Ht _]. congruence. }
  assert (Hk : ∃ k1 k2, pre = k1 ++ factory_success w (data_dir a) ++ k2).
  { destruct a as [ddir [cmd|]]; unfold main, command, data_dir in *.
    2:{ exfalso. apply (Hquiet [Stdout (help_text w)]); [|done].
        by repeat constructor. }
    destruct cmd;
      try (destruct (handler_calls_after_init _ _ _ _ _ _ Heq He) as [k ->];
           by exists [], k).
    - rewrite cmd_add_dir_unfold in Heq. cbv zeta in Heq.
      destruct (sorted (glob w (search_path dir_path pattern))) as [|f fs].
      + exfalso. eapply Hquiet; [|exact Heq]. by repeat constructor.
      + pose proof (handler_calls_after_init
                      (λ client, add_dir_try sv client (f :: fs)) ddir s)
          as Hh.
        destruct ((client ← get_client sv w ddir;
                   try_finally (add_dir_try sv client (f :: fs))
                     (close sv client)) s) as [[s' t'] o'].
        unfold run_trace in *; simpl in *.
        destruct pre as [|x pre]; simpl in Heq.
        * injection Heq as <- _. discriminate He.
        * injection Heq as <- Heq.
          destruct (Hh _ _ _ Heq He) as [k ->].
          by exists [Glob (search_path dir_path pattern)
                       (glob w (search_path dir_path pattern))], k.
    - exfalso. eapply Hquiet; [|exact Heq].
      eapply Forall_impl; [apply cmd_info_events|]. by intros []. }
  destruct Hk as (k1 & k2 & ->).
  rewrite !elem_of_app. unfold factory_success.
  rewrite !elem_of_cons. tauto.
Qed.

(** ** Leaving through [sys.exit] *)

Lemma never_exits_ret {A} (a : A) : never_exits (S:=S) (ret a).
Proof. by intros s code. Qed.

Lemma never_exits_mret {A} (a : A) : never_exits (S:=S) (mret a).
Proof. by intros s code. Qed.

Lemma never_exits_emit ev : never_exits (S:=S) (emit ev).
Proof. by intros s code. Qed.

Lemma never_exits_print text : never_exits (S:=S) (print text).
Proof. by intros s code. Qed.

Lemma never_exits_call {A} (op : S → S * result A) ev :
  never_exits (call op ev).
Proof.
  intros s code. unfold call, run_outcome.
  by destruct (op s) as [s' [a|e]].
Qed.

Lemma never_exits_bind {A B} (m : M S A) (k : A → M S B) :
  never_exits m → (∀ a, never_exits (k a)) → never_exits (m ≫= k).
Proof.
  intros Hm Hk s code. specialize (Hm s).
  unfold mbind, M_bind, bind, run_outcome in *.
  destruct (m s) as [[s1 t1] [a|e|code']]; simpl in *;
    [|done|by destruct (Hm code')].
  specialize (Hk a s1 code). unfold run_outcome in Hk.
  by destruct (k a s1) as [[s2 t2] o].
Qed.

Lemma never_exits_try_except {A} (body : M S A) (handler : exn → M S A) :
  never_exits body → (∀ e, never_exits (handler e)) →
  never_exits (try_except body handler).
Proof.
  intros Hb Hh s code. specialize (Hb s).
  unfold try_except, run_outcome in *.
  destruct (body s) as [[s1 t1] [a|e|code']]; simpl in *;
    [done| |by destruct (Hb code')].
  specialize (Hh e s1 code). unfold run_outcome in Hh.
  by destruct (handler e s1) as [[s2 t2] o].
Qed.

Lemma never_exits_for_fold {A B} (xs : list A) (acc : B)
    (body : A → B → M S B) :
  (∀ x acc', never_exits (body x acc')) → never_exits (for_fold xs acc body).
Proof.
  intros Hbody. revert acc.
  induction xs as [|x xs IH]; intros acc; simpl.
  - apply never_exits_ret.
  - apply (never_exits_bind (body x acc)); [apply Hbody|apply IH].
Qed.

Lemma never_exits_for_each {A} (xs : list A) (body : A → M S unit) :
  (∀ x, never_exits (body x)) → never_exits (for_each xs body).
Proof. intros Hbody. apply never_exits_for_fold. intros x _. apply Hbody. Qed.

(** Follows the body of a handler through the combinators above. *)
Ltac never_exits_steps :=
  unfold add_dir_try, add_dir_body, search_body, ls_body, add_resource,
    wait_processed, find, client_ls, client_abstract, client_overview,
    client_read;
  repeat first
    [ apply never_exits_mret
    | apply never_exits_ret
    | apply never_exits_print
    | apply never_exits_emit
    | apply never_exits_call
    | apply never_exits_for_each; intros
    | apply never_exits_for_fold; intros
    | apply never_exits_try_except; [|intros]
    | apply never_exits_bind; [|intros]
    | match goal with
      | |- never_exits (if ?b then _ else _) => destruct b
      | |- never_exits (match ?x with _ => _ end) => destruct x
      end ].

(** A handler of the shared shape leaves through [sys.exit] only from the
    factory, for one of its two fatal conditions. *)
Lemma handler_exit {A} (body : client → M S A) ddir s code :
  (∀ c, never_exits (body c)) →
  run_outcome ((client ← get_client sv w ddir;
                try_finally (body client) (close sv client)) s) = Exit code →
  (client ← get_client sv w ddir;
   try_finally (body client) (close sv client)) s
  = (s, factory_failure w, Exit 1)
  ∧ code = 1%Z
  ∧ (openviking w = None ∨ path_exists w (config_file w) = false).
Proof.
  intros Hbody.
  destruct (get_client sv w ddir s) as [[s1 t1] o] eqn:Hget.
  pose proof Hget as Hcase. rewrite get_client_unfold in Hcase.
  destruct o as [c|e|code'].
  - rewrite (with_client_acquired _ _ _ _ _ _ Hget).
    specialize (Hbody c s1 code). unfold run_outcome in Hbody.
    destruct (body c s1) as [[s2 t2] o2]. unfold closing.
    by destruct (sv_close sv s2) as [s3 [[]|e]].
  - by rewrite (with_client_raise _ _ _ _ _ _ Hget).
  - rewrite (with_client_exit _ _ _ _ _ _ Hget). unfold run_outcome; simpl.
    intros [= ->].
    destruct (openviking w); [|injection Hcase as <- <- <-; auto].
    destruct (path_exists w (config_file w));
      [|injection Hcase as <- <- <-; auto].
    destruct (sv_construct sv s ddir) as [s1' [[]|e]]; [|done].
    by destruct (sv_initialize sv s1') as [s2 [[]|e]].
Qed.

(** X3: a run of a subcommand ends in [sys.exit] only with code 1, only
    from the client factory (so never for [info], nor for [add-dir] when
    nothing matched), and only because the library is missing or the
    configuration file does not exist; nothing but the diagnostic has then
    happened and the service is as it was. *)
Theorem exit_only_from_factory ddir cmd s code :
  run_outcome (main sv w (Args ddir (Some cmd)) s) = Exit code →
  code = 1%Z
  ∧ reaches_factory w cmd = true
  ∧ (openviking w = None ∨ path_exists w (config_file w) = false)
  ∧ run_trace (main sv w (Args ddir (Some cmd)) s)
    = before_factory w cmd ++ factory_failure w
  ∧ run_state (main sv w (Args ddir (Some cmd)) s) = s.
Proof.
  unfold main, command, data_dir.
  destruct cmd;
    try (unfold cmd_add, cmd_search, cmd_ls, cmd_abstract, cmd_overview,
           cmd_read; cbv zeta; intros Hexit;
         apply handler_exit in Hexit as (-> & -> & Hwhy);
           [done|intros c; never_exits_steps]).
  - rewrite cmd_add_dir_unfold. cbv zeta. unfold reaches_factory.
    destruct (glob w (search_path dir_path pattern)) as [|x xs] eqn:Hglob.
    { by rewrite sorted_nil. }
    destruct (sorted_cons x xs) as (f & fs & ->).
    pose proof (handler_exit (λ client, add_dir_try sv client (f :: fs))
                  ddir s code) as Hh.
    destruct ((client ← get_client sv w ddir;
               try_finally (add_dir_try sv client (f :: fs))
                 (close sv client)) s) as [[s' t'] o'].
    unfold run_outcome, run_trace, run_state in *; simpl in *.
    intros ->. destruct Hh as ([= -> ->] & -> & Hwhy); [|done|].
    + intros c. never_exits_steps.
    + unfold before_factory. by rewrite Hglob.
  - by rewrite cmd_info_run.
Qed.

Lemma refusal_stderr ddir s s1 t1 o text :
  get_client sv w ddir s = (s1, t1, o) →
  Stderr text ∈ t1 →
  o = Exit 1.
Proof.
  rewrite get_client_unfold. unfold factory_failure, factory_success.
  destruct (openviking w); [|by intros [= <- <- <-]].
  destruct (path_exists w (config_file w)); [|by intros [= <- <- <-]].
  destruct (sv_construct sv s ddir) as [s1' [[]|e]].
  - destruct (sv_initialize sv s1') as [s2 [[]|e]]; intros [= <- <- <-];
      rewrite !elem_of_cons, elem_of_nil; by intros [[=]|[[=]|[[=]|[]]]].
  - intros [= <- <- <-].
    rewrite !elem_of_cons, elem_of_nil; by intros [[=]|[[=]|[]]].
Qed.

Lemma handler_stderr {A} (body : client → M S A) ddir s text :
  (∀ c, emits (λ e, is_stderr e = false) (body c)) →
  Stderr text ∈ run_trace ((client ← get_client sv w ddir;
                            try_finally (body client) (close sv client)) s) →
  run_outcome ((client ← get_client sv w ddir;
                try_finally (body client) (close sv client)) s) = Exit 1.
Proof.
  intros Hbody.
  destruct (get_client sv w ddir s) as [[s1 t1] o] eqn:Hget.
  pose proof (refusal_stderr _ _ _ _ _ text Hget) as Href.
  destruct o as [c|e|code].
  - rewrite (with_client_acquired _ _ _ _ _ _ Hget).
    specialize (Hbody c s1). unfold run_trace in Hbody.
    destruct (body c s1) as [[s2 t2] o2]. unfold closing.
    destruct (sv_close sv s2) as [s3 rc]. unfold run_trace; simpl in *.
    rewrite !elem_of_app, elem_of_cons, elem_of_nil.
    intros [[Hin|Hin]|[[=]|[]]]; [by apply Href in Hin|].
    rewrite Forall_forall in Hbody. by apply Hbody in Hin.
  - rewrite (with_client_raise _ _ _ _ _ _ Hget). unfold run_trace; simpl.
    intros Hin. by apply Href in Hin.
  - rewrite (with_client_exit _ _ _ _ _ _ Hget).
    unfold run_trace, run_outcome; simpl.
    intros Hin. apply Href in Hin. by injection Hin as ->.
Qed.

(** X19: the script writes to the error stream only when it is about to
    leave through [sys.exit(1)]: in a run of any subcommand with a line on
    the error stream, the outcome is that exit. *)
Theorem stderr_only_when_fatal ddir cmd s text :
  Stderr text ∈ run_trace (main sv w (Args ddir (Some cmd)) s) →
  run_outcome (main sv w (Args ddir (Some cmd)) s) = Exit 1.
Proof.
  unfold main, command, data_dir.
  destruct cmd;
    try (unfold cmd_add, cmd_search, cmd_ls, cmd_abstract, cmd_overview,
           cmd_read; cbv zeta;
         apply handler_stderr; intros c; by emits_handler).
  - rewrite cmd_add_dir_unfold. cbv zeta.
    destruct (sorted (glob w (search_path dir_path pattern))) as [|f fs].
    { unfold run_trace; simpl. rewrite !elem_of_cons, elem_of_nil.
      by intros [[=]|[[=]|[]]]. }
    pose proof (handler_stderr (λ client, add_dir_try sv client (f :: fs))
                  ddir s text) as Hh.
    destruct ((client ← get_client sv w ddir;
               try_finally (add_dir_try sv client (f :: fs))
                 (close sv client)) s) as [[s' t'] o'].
    unfold run_outcome, run_trace in *; simpl in *.
    rewrite elem_of_cons. intros [[=]|Hin]. apply Hh; [|done].
    intros c. by emits_handler.
  - intros Hin. pose proof (cmd_info_events ddir s) as Hev.
    rewrite Forall_forall in Hev. by apply Hev in Hin.
Qed.

(** ** [add] *)

(** The run of [cmd_add] once the client is acquired, by what the service
    answers. *)
Lemma cmd_add_run ddir path s0 s1 t1 c :
  get_client sv w ddir s0 = (s1, t1, Ret c) →
  cmd_add sv w ddir path s0 =
  match sv_add_resource sv s1 path with
  | (s2, Ok r) =>
      if succeeded r then
        let lines :=
          [AddResource path (Ok r);
           Stdout ("✅ Added: " +:+ path);
           Stdout ("   URI: " +:+ default "" (ar_root_uri r));
           Stdout "⏳ Processing embeddings and summaries..."] in
        match sv_wait_processed sv s2 with
        | (s3, Ok _) =>
            closing sv s3
              (t1 ++ lines ++ [WaitProcessed (Ok ());
                               Stdout "✅ Processing complete."]) (Ret ())
        | (s3, Err e) =>
            closing sv s3 (t1 ++ lines ++ [WaitProcessed (Err e)]) (Raise e)
        end
      else
        closing sv s2
          (t1 ++ [AddResource path (Ok r); Stdout ("❌ Failed: " +:+ path)]
              ++ error_lines (default [] (ar_errors r)))
          (Ret ())
  | (s2, Err e) => closing sv s2 (t1 ++ [AddResource path (Err e)]) (Raise e)
  end.
Proof.
  intros Hget. unfold cmd_add.
  rewrite (with_client_acquired _ _ _ _ _ _ Hget).
  unfold add_resource, call, mbind, M_bind, bind.
  destruct (sv_add_resource sv s1 path) as [s2 [r|e]]; simpl; [|done].
  rewrite succeeded_status. destruct (succeeded r).
  - unfold wait_processed. unfold_prog.
    by destruct (sv_wait_processed sv s2) as [s3 [[]|e]].
  - unfold print, emit.
    rewrite (for_each_prints _ (λ e, [Stdout ("   Error: " +:+ e)])) by done.
    simpl. do 4 f_equal. unfold error_lines.
    induction (default [] (ar_errors r)) as [|e es IH]; [done|].
    simpl. by rewrite IH.
Qed.

(** X8: when the client is acquired, the service accepts the file with
    status "success" and the wait for the processing returns, [add] prints
    the confirmation with the root URI (empty when the result has none),
    waits once, prints the completion, and closes the client. *)
Theorem add_reports_success ddir path s0 s1 t1 c r s2 s3 :
  get_client sv w ddir s0 = (s1, t1, Ret c) →
  sv_add_resource sv s1 path = (s2, Ok r) →
  ar_status r = Some "success" →
  sv_wait_processed sv s2 = (s3, Ok ()) →
  run_trace (main sv w (Args ddir (Some (Add path))) s0) =
    t1 ++ [AddResource path (Ok r);
           Stdout ("✅ Added: " +:+ path);
           Stdout ("   URI: " +:+ default "" (ar_root_uri r));
           Stdout "⏳ Processing embeddings and summaries...";
           WaitProcessed (Ok ());
           Stdout "✅ Processing complete.";
           Close (sv_close sv s3).2].
Proof.
  intros Hget Hadd Hstatus Hwait. unfold main, command, data_dir.
  rewrite (cmd_add_run _ _ _ _ _ _ Hget), Hadd.
  assert (Hs : succeeded r = true)
    by (unfold succeeded; by apply bool_decide_eq_true).
  rewrite Hs. cbv zeta. rewrite Hwait.
  unfold closing. destruct (sv_close sv s3) as [s4 rc].
  unfold run_trace; simpl. by rewrite <- !app_assoc.
Qed.

(** X9: when the client is acquired and the result of the service does not
    have the status "success" (or has no status), [add] prints the failure
    line and one line for each error message of the result, in order; it
    never waits for the processing, it closes the client, and the failure
    is not an error of the process: the exit status is 0 unless [close]
    itself raises. *)
Theorem add_reports_failure ddir path s0 s1 t1 c r s2 :
  get_client sv w ddir s0 = (s1, t1, Ret c) →
  sv_add_resource sv s1 path = (s2, Ok r) →
  ar_status r ≠ Some "success" →
  let run := main sv w (Args ddir (Some (Add path))) s0 in
  run_trace run =
    t1 ++ [AddResource path (Ok r); Stdout ("❌ Failed: " +:+ path)]
       ++ map (λ e, Stdout ("   Error: " +:+ e)) (default [] (ar_errors r))
       ++ [Close (sv_close sv s2).2]
  ∧ Forall (λ e, ∀ a, e ≠ WaitProcessed a) (run_trace run)
  ∧ exit_status (run_outcome run)
    = match (sv_close sv s2).2 with Ok _ => 0%Z | Err _ => 1%Z end.
Proof.
  intros Hget Hadd Hstatus run. subst run. unfold main, command, data_dir.
  rewrite (cmd_add_run _ _ _ _ _ _ Hget), Hadd.
  assert (Hs : succeeded r = false)
    by (unfold succeeded; by apply bool_decide_eq_false).
  rewrite Hs. unfold closing. destruct (sv_close sv s2) as [s3 rc].
  unfold run_trace, run_outcome, error_lines; simpl.
  destruct (get_client_ret _ _ _ _ _ Hget) as [-> _].
  split; [by rewrite <- !app_assoc|]. split; [|by destruct rc].
  rewrite <- !app_assoc. simpl.
  repeat (apply Forall_cons; split; [done|]).
  apply Forall_app. split; [|by repeat constructor].
  apply Forall_forall. intros e He.
  apply list_elem_of_In, in_map_iff in He. by destruct He as (x & <- & _).
Qed.

(** ** More on [search] *)

Lemma cmd_search_run ddir query limit s0 s1 t1 c :
  get_client sv w ddir s0 = (s1, t1, Ret c) →
  cmd_search sv w ddir query limit s0 =
  match sv_find sv s1 query limit with
  | (s2, Ok []) =>
      closing sv s2
        (t1 ++ [Find query limit (Ok []);
                Stdout ("No results for '" +:+ query +:+ "'")]) (Ret ())
  | (s2, Ok rs) =>
      let '(s3, t3, o3) :=
        for_each (enumerate 1 rs) (search_body sv c) s2 in
      closing sv s3
        (t1 ++ [Find query limit (Ok rs);
                Stdout ("🔍 Results for '" +:+ query +:+ "':" +:+ PyStr.nl)]
            ++ t3) o3
  | (s2, Err e) =>
      closing sv s2 (t1 ++ [Find query limit (Err e)]) (Raise e)
  end.
Proof.
  intros Hget. unfold cmd_search.
  rewrite (with_client_acquired _ _ _ _ _ _ Hget).
  unfold find, call, mbind, M_bind, bind.
  destruct (sv_find sv s1 query limit) as [s2 [[|r rs]|e]]; simpl; [done| |done].
  unfold print, emit.
  by destruct (for_each _ (search_body sv c) s2) as [[s3 t3] [[]|e|code]].
Qed.

(** X10: when the client is acquired and the search finds nothing,
    [search] passes the query and the limit as given, prints the "No
    results" line, fetches no content, and closes the client; the exit
    status is 0 unless [close] itself raises. *)
Theorem search_no_results ddir query limit s0 s1 t1 c s2 :
  get_client sv w ddir s0 = (s1, t1, Ret c) →
  sv_find sv s1 query limit = (s2, Ok []) →
  let run := main sv w (Args ddir (Some (Search query limit))) s0 in
  run_trace run =
    t1 ++ [Find query limit (Ok []);
           Stdout ("No results for '" +:+ query +:+ "'");
           Close (sv_close sv s2).2]
  ∧ exit_status (run_outcome run)
    = match (sv_close sv s2).2 with Ok _ => 0%Z | Err _ => 1%Z end.
Proof.
  intros Hget Hfind run. subst run. unfold main, command, data_dir.
  rewrite (cmd_search_run _ _ _ _ _ _ _ Hget), Hfind.
  unfold closing. destruct (sv_close sv s2) as [s3 rc].
  unfold run_trace, run_outcome; simpl.
  split; [by rewrite <- !app_assoc|by destruct rc].
Qed.

Lemma fetched_app t1 t2 : fetched (t1 ++ t2) = fetched t1 ++ fetched t2.
Proof. apply omap_app. Qed.

Lemma fetched_block ir answer : fetched (result_block ir answer) = [r_uri ir.2].
Proof. by destruct answer as [[[|ch content]|]|e]. Qed.

Lemma fetched_blocks irs : ∀ answers,
  List.length answers = List.length irs →
  fetched (List.concat (zip_with result_block irs answers))
  = map (λ ir, r_uri ir.2) irs.
Proof.
  induction irs as [|ir irs IH]; intros [|a answers] Hlen; try done.
  cbn [zip_with List.concat map].
  rewrite fetched_app, fetched_block, IH by (simpl in Hlen; lia). done.
Qed.

Lemma enumerate_snd {A} (xs : list A) i : map snd (enumerate i xs) = xs.
Proof.
  revert i. induction xs as [|x xs IH]; intros i; simpl; [done|].
  by rewrite IH.
Qed.

(** X11: when the client is acquired, [search] fetches the content of
    every result exactly once, in rank order, whatever the earlier fetches
    answered or raised: the URIs fetched in the run are the URIs of the
    results. *)
Theorem search_fetches_every_result ddir query limit s0 s1 t1 c rs s2 :
  get_client sv w ddir s0 = (s1, t1, Ret c) →
  sv_find sv s1 query limit = (s2, Ok rs) →
  fetched (run_trace (main sv w (Args ddir (Some (Search query limit))) s0))
  = map r_uri rs.
Proof.
  intros Hget Hfind. unfold main, command, data_dir.
  rewrite (cmd_search_run _ _ _ _ _ _ _ Hget), Hfind.
  destruct (get_client_ret _ _ _ _ _ Hget) as [-> _].
  destruct rs as [|r rs].
  { unfold closing. by destruct (sv_close sv s2) as [s3 rc]. }
  destruct (search_loop_run c (enumerate 1 (r :: rs)) s2)
    as (answers & s3 & Hlen & ->).
  unfold closing. destruct (sv_close sv s3) as [s4 rc].
  unfold run_trace; cbn [fst snd].
  rewrite !fetched_app, (fetched_blocks _ _ Hlen).
  change (fetched (factory_success w ddir)) with (@nil string).
  change (fetched [Close rc]) with (@nil string).
  rewrite app_nil_r. cbn [app fetched omap list_omap].
  rewrite <- (enumerate_snd (r :: rs) 1) at 2. by rewrite map_map.
Qed.

(** ** Content and errors of the service *)

(** X12: for [abstract], [overview] and [read], when the client is
    acquired and the service has content, the handler prints the content
    as it is, after a header line for [abstract] and [overview] and with
    no header for [read], then closes the client; the exit status is 0
    unless [close] itself raises. *)
Theorem shows_content ddir cmd s0 s1 t1 c ev lines s2 :
  get_client sv w ddir s0 = (s1, t1, Ret c) →
  answers_content sv cmd s1 ev lines s2 →
  let run := main sv w (Args ddir (Some cmd)) s0 in
  run_trace run = t1 ++ ev :: lines ++ [Close (sv_close sv s2).2]
  ∧ exit_status (run_outcome run)
    = match (sv_close sv s2).2 with Ok _ => 0%Z | Err _ => 1%Z end.
Proof.
  intros Hget Hcontent run. subst run.
  destruct Hcontent as [uri s s' ch text Hans|uri s s' ch text Hans
                       |uri s s' ch text Hans];
    unfold main, command, data_dir, cmd_abstract, cmd_overview, cmd_read;
    rewrite (with_client_acquired _ _ _ _ _ _ Hget);
    unfold client_abstract, client_overview, client_read, closing;
    unfold_prog; rewrite Hans; simpl;
    destruct (sv_close sv s') as [s3 rc];
    unfold run_trace, run_outcome; simpl;
    (split; [by rewrite <- !app_assoc|by destruct rc]).
Qed.

(** X13: the handlers do not catch the errors of the service.  When the
    client is acquired and the first call of [add], [search], [ls],
    [abstract], [overview] or [read] raises, the handler prints nothing,
    closes the client, and the exception leaves the handler: the exit
    status is 1. *)
Theorem service_error_propagates ddir cmd s0 s1 t1 c ev e s2 :
  get_client sv w ddir s0 = (s1, t1, Ret c) →
  call_raises sv cmd s1 ev e s2 →
  let run := main sv w (Args ddir (Some cmd)) s0 in
  run_trace run = t1 ++ [ev; Close (sv_close sv s2).2]
  ∧ run_outcome run
    = Raise (match (sv_close sv s2).2 with Ok _ => e | Err e' => e' end)
  ∧ exit_status (run_outcome run) = 1%Z.
Proof.
  intros Hget Hraises run. subst run.
  destruct Hraises as [path s s' e Hans|query limit s s' e Hans
                      |uri s s' e Hans|uri s s' e Hans|uri s s' e Hans
                      |uri s s' e Hans];
    unfold main, command, data_dir.
  - rewrite (cmd_add_run _ _ _ _ _ _ Hget), Hans. unfold closing.
    destruct (sv_close sv s') as [s3 [[]|e']];
      unfold run_trace, run_outcome; simpl; by rewrite <- !app_assoc.
  - rewrite (cmd_search_run _ _ _ _ _ _ _ Hget), Hans. unfold closing.
    destruct (sv_close sv s') as [s3 [[]|e']];
      unfold run_trace, run_outcome; simpl; by rewrite <- !app_assoc.
  - rewrite (cmd_ls_run _ _ _ _ _ _ Hget). cbv zeta. rewrite Hans.
    unfold closing.
    destruct (sv_close sv s') as [s3 [[]|e']];
      unfold run_trace, run_outcome; simpl; by rewrite <- !app_assoc.
  - unfold cmd_abstract. rewrite (with_client_acquired _ _ _ _ _ _ Hget).
    unfold client_abstract, closing. unfold_prog. rewrite Hans. simpl.
    destruct (sv_close sv s') as [s3 [[]|e']];
      unfold run_trace, run_outcome; simpl; by rewrite <- !app_assoc.
  - unfold cmd_overview. rewrite (with_client_acquired _ _ _ _ _ _ Hget).
    unfold client_overview, closing. unfold_prog. rewrite Hans. simpl.
    destruct (sv_close sv s') as [s3 [[]|e']];
      unfold run_trace, run_outcome; simpl; by rewrite <- !app_assoc.
  - unfold cmd_read. rewrite (with_client_acquired _ _ _ _ _ _ Hget).
    unfold client_read, closing. unfold_prog. rewrite Hans. simpl.
    destruct (sv_close sv s') as [s3 [[]|e']];
      unfold run_trace, run_outcome; simpl; by rewrite <- !app_assoc.
Qed.

(** The loop of [cmd_add_dir] when the service raises on a file: the
    files before it have their events, and the loop ends there. *)
Lemma add_dir_loop_abort c f rest e s3 : ∀ sent s results s2 sc fc,
  add_answers sv s sent = Some (results, s2) →
  sv_add_resource sv s2 f = (s3, Err e) →
  for_fold (sent ++ f :: rest) (sc, fc) (add_dir_body sv c) s =
  (s3, List.concat (zip_with file_events sent results)
       ++ [AddResource f (Err e)], Raise e).
Proof.
  induction sent as [|d sent IH]; intros s results s2 sc fc Hans Hf.
  - injection Hans as <- <-. cbn [app for_fold]. unfold bind.
    unfold add_dir_body, add_resource. unfold_prog. by rewrite Hf.
  - simpl in Hans.
    destruct (sv_add_resource sv s d) as [s1 [r|e']] eqn:Hd; [|done].
    destruct (add_answers sv s1 sent) as [[rs s'']|] eqn:Hrest; [|done].
    injection Hans as <- <-.
    cbn [app for_fold]. unfold bind.
    rewrite (add_dir_body_run _ _ _ _ _ _ _ Hd).
    destruct (succeeded r); rewrite (IH _ _ _ _ _ Hrest Hf); done.
Qed.

(** X14: an exception of the service aborts the batch of [add-dir].  When
    the client is acquired, the files before some file are answered and
    the submission of that file raises, the files before it have their
    lines, the files after it are not submitted, there is no wait and no
    summary, the client is closed and the exception leaves the handler:
    the exit status is 1. *)
Theorem add_dir_aborts_on_exception
    ddir dir_path pattern s0 s1 t1 c sent f rest results s2 s3 e :
  sorted (glob w (search_path dir_path pattern)) = sent ++ f :: rest →
  get_client sv w ddir s0 = (s1, t1, Ret c) →
  add_answers sv s1 sent = Some (results, s2) →
  sv_add_resource sv s2 f = (s3, Err e) →
  let run := main sv w (Args ddir (Some (AddDir dir_path pattern))) s0 in
  run_trace run =
    Glob (search_path dir_path pattern) (glob w (search_path dir_path pattern))
    :: t1
    ++ List.concat (zip_with file_events sent results)
    ++ [AddResource f (Err e); Close (sv_close sv s3).2]
  ∧ submitted (run_trace run) = sent ++ [f]
  ∧ exit_status (run_outcome run) = 1%Z.
Proof.
  intros Hfiles Hget Hans Hf run.
  assert (Hrun : run =
    let '(s4, rc) := sv_close sv s3 in
    (s4,
     Glob (search_path dir_path pattern) (glob w (search_path dir_path pattern))
     :: t1 ++ List.concat (zip_with file_events sent results)
     ++ [AddResource f (Err e); Close rc],
     Raise (match rc with Ok _ => e | Err e' => e' end))).
  { subst run. unfold main, command, data_dir.
    rewrite cmd_add_dir_unfold. cbv zeta. rewrite Hfiles.
    destruct (sent ++ f :: rest) as [|x xs] eqn:Hsplit;
      [by destruct sent|].
    rewrite <- Hsplit.
    rewrite (with_client_acquired
               (λ client, add_dir_try sv client (sent ++ f :: rest))
               _ _ _ _ _ Hget).
    rewrite add_dir_try_run, (add_dir_loop_abort _ _ _ _ _ _ _ _ _ 0 0 Hans Hf).
    unfold closing. destruct (sv_close sv s3) as [s4 [[]|e']];
      by rewrite <- !app_assoc. }
  rewrite Hrun. destruct (sv_close sv s3) as [s4 rc].
  unfold run_trace, run_outcome; simpl. split; [done|]. split; [|done].
  pose proof (add_answers_length _ _ _ _ Hans) as Hlen.
  destruct (get_client_ret _ _ _ _ _ Hget) as [-> _].
  unfold submitted. simpl. rewrite !omap_app. simpl. f_equal.
  clear -Hlen. revert results Hlen.
  induction sent as [|d sent IH]; intros [|r results] Hlen; try done.
  simpl. rewrite IH by (simpl in Hlen; lia).
  unfold file_line. by destruct (succeeded r).
Qed.

(** ** More on the preview *)

(** X15: a preview never begins nor ends with white space: no
    white-space character, of ASCII or not, is at its start or at its
    end. *)
Theorem preview_is_trimmed content :
  (∀ h t, preview_of content = h +:+ t → PyStr.space_char h = false)
  ∧ (∀ t h, preview_of content = t +:+ h → PyStr.space_char h = false).
Proof. unfold preview_of. apply strip_trimmed. Qed.

(** X16: a content of at most 150 characters, on one line and with no
    white-space character at either end, is previewed as it is. *)
Theorem preview_verbatim content :
  (PyStr.len content ≤ 150)%nat →
  PyStr.contains PyStr.newline content = false →
  (∀ h t, content = h +:+ t → PyStr.space_char h = false) →
  (∀ t h, content = t +:+ h → PyStr.space_char h = false) →
  preview_of content = content.
Proof.
  intros Hlen Hnl Hl Hr. unfold preview_of.
  rewrite slice_to_short, replace_absent by done. by apply strip_fixed.
Qed.

(** X17: a content that is not empty but whose first 150 characters are
    white space only still gets a preview line, with an empty preview:
    the line reads "Preview: ...". *)
Theorem blank_content_preview c ir s s' ch rest :
  sv_read sv s (r_uri ir.2) = (s', Ok (Some (String ch rest))) →
  white_space (PyStr.slice_to 150 (String ch rest)) →
  search_body sv c ir s =
  (s',
   [Stdout ("  " +:+ pretty ir.1 +:+ ". " +:+ r_uri ir.2);
    Stdout ("     Score: " +:+ r_score_4f ir.2);
    Read (r_uri ir.2) (Ok (Some (String ch rest)));
    Stdout "     Preview: ...";
    Stdout ""],
   Ret ()).
Proof.
  intros Hread Hblank%white_space_blank. rewrite search_body_run, Hread.
  cbn [fst snd]. unfold result_block, preview_line, preview_of, PyStr.strip.
  by rewrite (lstrip_blank _ (blank_replace _ Hblank)).
Qed.

(** ** The path handed to [glob] *)




End Properties.

(** ** Instances on the sample environments *)

Lemma add_dir_no_match_witness :
  glob bare_world (search_path "docs" "*.md") = []
  ∧ let r := main demo_service bare_world
               (Args "data" (Some (AddDir "docs" "*.md"))) 0 in
    run_trace r =
      [Glob (search_path "docs" "*.md") [];
       Stdout ("No files matching '" +:+ str_or "*.md" "*.md"
               +:+ "' found in " +:+ "docs")]
    ∧ Forall (λ e, is_client_event e = false) (run_trace r)
    ∧ run_state r = 0
    ∧ exit_status (run_outcome r) = 0%Z.
Proof.
  split; [reflexivity|].
  apply (add_dir_no_match demo_service bare_world "data" "docs" "*.md" 0).
  reflexivity.
Defined.

Lemma soft_outcome_witness :
  let r := main demo_service ready_world
             (Args "data" (Some (AbstractCmd "viking://resources/a"))) 0 in
  run_trace r =
    factory_success ready_world "data"
    ++ [Abstract "viking://resources/a" (Ok None);
        Stdout ("No abstract available for " +:+ "viking://resources/a");
        Close (Ok ())]
  ∧ Forall (λ e, is_stderr e = false) (run_trace r)
  ∧ exit_status (run_outcome r) = 0%Z.
Proof.
  apply (soft_outcome demo_service ready_world "data"
           (AbstractCmd "viking://resources/a") 0 0
           (factory_success ready_world "data") (Client "data")
           (Abstract "viking://resources/a" (Ok None))
           ("No abstract available for " +:+ "viking://resources/a") 0 0).
  - vm_compute. reflexivity.
  - apply (nothing_abstract demo_service "viking://resources/a" 0 0 None);
      reflexivity.
  - reflexivity.
Defined.

(** C4 as the claim states it fails on [add-dir] when nothing matches: the
    configuration file is missing, yet the run prints its message on
    standard output and ends normally. *)
Lemma missing_config_add_dir_not_fatal :
  client_using (AddDir "docs" "*.md") = true
  ∧ path_exists bare_world (config_file bare_world) = false
  ∧ ¬ fatal_before_client
        (main demo_service bare_world
           (Args "data" (Some (AddDir "docs" "*.md"))) 0).
Proof.
  split; [reflexivity|]. split; [reflexivity|].
  intros [Hstatus _]. apply Hstatus. reflexivity.
Qed.

Lemma missing_config_is_fatal_witness :
  reaches_factory bare_world (ReadCmd "viking://resources/a") = true
  ∧ path_exists bare_world (config_file bare_world) = false
  ∧ let r := main demo_service bare_world
               (Args "data" (Some (ReadCmd "viking://resources/a"))) 0 in
    run_trace r =
      before_factory bare_world (ReadCmd "viking://resources/a")
      ++ factory_failure bare_world
    ∧ run_outcome r = Exit 1
    ∧ run_state r = 0
    ∧ fatal_before_client r.
Proof.
  split; [reflexivity|]. split; [reflexivity|].
  apply (missing_config_is_fatal demo_service bare_world "data"
           (ReadCmd "viking://resources/a") 0); reflexivity.
Defined.

(** C5 as the claim states it fails when [initialize] raises inside
    [get_client]: the client has been constructed, the exception leaves the
    handler, and [close] is never called. *)
Lemma client_left_open_when_initialize_raises :
  client_using (Add "notes.md") = true
  ∧ let r := main locked_service ready_world
               (Args "data" (Some (Add "notes.md"))) () in
    run_trace r =
      [PathExists "/home/u/.openviking/ov.conf" true;
       Construct "data" (Ok ());
       Initialize (Err (Exn "RuntimeError" "store is locked"))]
    ∧ run_outcome r = Raise (Exn "RuntimeError" "store is locked")
    ∧ left_open (run_trace r) = true.
Proof. repeat split; reflexivity. Qed.

Lemma client_closed_once_acquired_witness :
  client_using (Add "docs/broken.md") = true
  ∧ let r := main demo_service ready_world
               (Args "data" (Some (Add "docs/broken.md"))) 0 in
    Initialize (Ok ()) ∈ run_trace r
    ∧ run_outcome r = Raise (Exn "OSError" "unreadable")
    ∧ (∃ pre rc, run_trace r = pre ++ [Close rc]
                 ∧ Forall (λ e, is_close e = false) pre)
    ∧ left_open (run_trace r) = false.
Proof.
  assert (Hin : Initialize (Ok ())
                ∈ run_trace (main demo_service ready_world
                               (Args "data" (Some (Add "docs/broken.md"))) 0)).
  { vm_compute. do 2 apply list_elem_of_further. apply list_elem_of_here. }
  split; [reflexivity|]. split; [exact Hin|]. split; [reflexivity|].
  apply (client_closed_once_acquired demo_service ready_world "data"
           (Add "docs/broken.md") 0); [reflexivity|exact Hin].
Defined.


Lemma add_dir_counts_witness :
  sorted (glob ready_world (search_path "docs" ""))
    = ["docs/a.md"; "docs/b.md"; "docs/c.md"]
  ∧ add_answers demo_service 0 ["docs/a.md"; "docs/b.md"; "docs/c.md"]
    = Some ([AddResult (Some "success") None (Some "viking://resources/r");
             AddResult (Some "error") (Some ["unsupported"; "skipped"]) None;
             AddResult (Some "success") None (Some "viking://resources/r")],
            3)
  ∧ run_trace (main demo_service ready_world
                 (Args "data" (Some (AddDir "docs" ""))) 0)
    = [Glob "docs/**/*.md" ["docs/b.md"; "docs/c.md"; "docs/a.md"];
       PathExists "/home/u/.openviking/ov.conf" true;
       Construct "data" (Ok ());
       Initialize (Ok ());
       AddResource "docs/a.md"
         (Ok (AddResult (Some "success") None (Some "viking://resources/r")));
       Stdout "  ✅ docs/a.md";
       AddResource "docs/b.md"
         (Ok (AddResult (Some "error") (Some ["unsupported"; "skipped"]) None));
       Stdout "  ❌ docs/b.md: unsupported";
       AddResource "docs/c.md"
         (Ok (AddResult (Some "success") None (Some "viking://resources/r")));
       Stdout "  ✅ docs/c.md";
       Stdout (PyStr.nl +:+ "⏳ Processing 2 files...");
       WaitProcessed (Ok ());
       Stdout "✅ Done. Success: 2, Failed: 1";
       Close (Ok ())].
Proof.
  assert (Hfiles : sorted (glob ready_world (search_path "docs" ""))
                   = ["docs/a.md"; "docs/b.md"; "docs/c.md"])
    by (vm_compute; reflexivity).
  assert (Hget : get_client demo_service ready_world "data" 0
                 = (0, factory_success ready_world "data",
                    Ret (Client "data"))) by (vm_compute; reflexivity).
  assert (Hans : add_answers demo_service 0
                   (sorted (glob ready_world (search_path "docs" "")))
    = Some ([AddResult (Some "success") None (Some "viking://resources/r");
             AddResult (Some "error") (Some ["unsupported"; "skipped"]) None;
             AddResult (Some "success") None (Some "viking://resources/r")],
            3)) by (vm_compute; reflexivity).
  split; [exact Hfiles|]. split; [by rewrite <- Hfiles|].
  refine (proj2 (proj2 (add_dir_counts demo_service ready_world "data" "docs"
                          "" 0 0 _ (Client "data") _ 3 3 _ Hget Hans _))).
  - rewrite Hfiles. discriminate.
  - reflexivity.
Defined.

Lemma ls_shows_visible_entries_witness :
  run_trace (main demo_service ready_world (Args "data" (Some (LsCmd ""))) 0)
  = factory_success ready_world "data"
    ++ [Ls "viking://resources" (sv_ls demo_service 0 "viking://resources").2;
        Stdout ("📁 viking://resources" +:+ PyStr.nl);
        Stdout "  📄 readme.md (120B)";
        Stdout "     viking://resources/readme.md";
        Stdout "  📁 docs";
        Stdout "     viking://resources/docs";
        Close (Ok ())].
Proof.
  refine (proj1 (ls_shows_visible_entries demo_service ready_world "data" ""
                   0 0 (factory_success ready_world "data") (Client "data")
                   _ 0 _ _ _)).
  - vm_compute. reflexivity.
  - reflexivity.
  - discriminate.
Defined.

Lemma ls_empty_only_when_empty_witness :
  Ls "viking://resources/new" (Ok [])
    ∈ run_trace (main demo_service ready_world
                   (Args "data" (Some (LsCmd "viking://resources/new"))) 0)
  ∧ run_trace (main demo_service ready_world
                 (Args "data" (Some (LsCmd "viking://resources/.cache"))) 0)
    = factory_success ready_world "data"
      ++ [Ls "viking://resources/.cache"
            (Ok [Entry (Some ".a") (Some true) None None;
                 Entry (Some ".b") (Some false) (Some 3%Z) None]);
          Stdout ("📁 viking://resources/.cache" +:+ PyStr.nl);
          Close (Ok ())].
Proof.
  split.
  - refine (proj1 (ls_empty_only_when_empty demo_service ready_world "data"
                     "viking://resources/new" 0)
              "Empty: viking://resources/new" _ _).
    + vm_compute. do 4 apply list_elem_of_further. apply list_elem_of_here.
    + reflexivity.
  - refine (proj2 (ls_empty_only_when_empty demo_service ready_world "data"
                     "viking://resources/.cache" 0)
              0 (factory_success ready_world "data") (Client "data") _ 0
              _ _ _ _).
    + vm_compute. reflexivity.
    + reflexivity.
    + discriminate.
    + repeat constructor.
Defined.

Lemma add_dir_submission_order_witness :
  let r := main demo_service ready_world
             (Args "data" (Some (AddDir "docs" ""))) 0 in
  submitted (run_trace r)
    = sorted (glob ready_world (search_path "docs" ""))
  ∧ sorted ["docs/c.md"; "docs/b.md"; "docs/a.md"]
    = sorted (glob ready_world (search_path "docs" "")).
Proof.
  split.
  - refine (proj1 (proj2 (add_dir_submission_order demo_service ready_world
                            "data" "docs" "" 0)) _).
    exists (Ok ()). vm_compute.
    do 11 apply list_elem_of_further. apply list_elem_of_here.
  - refine (proj2 (proj2 (proj2 (proj2
              (add_dir_submission_order demo_service ready_world
                 "data" "docs" "" 0)))) _ _).
    apply perm_swap.
Defined.

(** The configuration path on the sample machines. *)
Example config_file_ready : config_file ready_world = "/home/u/.openviking/ov.conf".
Proof. reflexivity. Qed.

Example config_file_bare : config_file bare_world = "/root/.openviking/ov.conf".
Proof. reflexivity. Qed.

(** The preview counts characters, not bytes: of 200 characters of two
    bytes each, 150 are kept, which is 300 bytes. *)
Example preview_of_accents :
  PyStr.len accents = 200
  ∧ PyStr.len (preview_of accents) = 150
  ∧ String.length (preview_of accents) = 300.
Proof. by vm_compute. Qed.

(** White space outside ASCII is trimmed as well. *)
Example preview_of_unicode_space :
  preview_of (nbsp +:+ "x" +:+ ideographic_space) = "x".
Proof. reflexivity. Qed.

(** ** Instances of the further properties *)

Lemma missing_library_is_fatal_witness :
  reaches_factory fresh_world (Add "notes/todo.md") = true
  ∧ openviking fresh_world = None
  ∧ run_trace (main demo_service fresh_world
                 (Args "data" (Some (Add "notes/todo.md"))) 0)
    = [Stderr "ERROR: openviking not installed. Run: pip install openviking"].
Proof.
  split; [reflexivity|]. split; [reflexivity|].
  refine (proj1 (missing_library_is_fatal demo_service fresh_world "data"
                   (Add "notes/todo.md") 0 _ _)); reflexivity.
Defined.

Lemma no_call_before_initialize_witness :
  let a := Args "data" (Some (ReadCmd "viking://resources/b")) in
  let e := Read "viking://resources/b"
             (Ok (Some ("  first line" +:+ PyStr.nl +:+ "second line  "))) in
  run_trace (main demo_service ready_world a 0)
    = factory_success ready_world "data"
      ++ e :: [Stdout ("  first line" +:+ PyStr.nl +:+ "second line  ");
               Close (Ok ())]
  ∧ Construct "data" (Ok ()) ∈ factory_success ready_world "data"
  ∧ Initialize (Ok ()) ∈ factory_success ready_world "data".
Proof.
  intros a e.
  assert (Hrun : run_trace (main demo_service ready_world a 0)
                 = factory_success ready_world "data"
                   ++ e :: [Stdout ("  first line" +:+ PyStr.nl
                                    +:+ "second line  ");
                            Close (Ok ())]) by (vm_compute; reflexivity).
  split; [exact Hrun|].
  exact (no_call_before_initialize demo_service ready_world a 0
           (factory_success ready_world "data") e _ Hrun eq_refl).
Defined.

Lemma exit_only_from_factory_witness :
  run_outcome (main demo_service bare_world
                 (Args "data" (Some (LsCmd ""))) 0) = Exit 1
  ∧ reaches_factory bare_world (LsCmd "") = true
  ∧ (openviking bare_world = None
     ∨ path_exists bare_world (config_file bare_world) = false).
Proof.
  assert (Hexit : run_outcome (main demo_service bare_world
                     (Args "data" (Some (LsCmd ""))) 0) = Exit 1)
    by reflexivity.
  split; [exact Hexit|].
  pose proof (exit_only_from_factory demo_service bare_world "data"
                (LsCmd "") 0 1 Hexit) as (_ & Hreach & Hwhy & _).
  exact (conj Hreach Hwhy).
Defined.

Lemma info_loads_config_iff_exists_witness :
  path_exists ready_world (config_file ready_world) = true
  ∧ LoadJson (config_file ready_world)
      (load_json ready_world (config_file ready_world))
    ∈ run_trace (main demo_service ready_world (Args "data" (Some Info)) 0).
Proof.
  split; [reflexivity|].
  refine (proj2 (info_loads_config_iff_exists demo_service ready_world
                   "data" 0) _).
  reflexivity.
Defined.

Lemma config_display_never_fails_witness :
  let w := configured_world (Ok (JDict [("embedding", JInt 5)])) in
  run_trace (show_config w "/home/u/.openviking/ov.conf" 0)
  = [LoadJson "/home/u/.openviking/ov.conf"
       (Ok (JDict [("embedding", JInt 5)]));
     Stdout (PyStr.nl +:+ "  Config parse error: "
             +:+ "'int' object has no attribute 'get'")]
  ∧ run_outcome (show_config w "/home/u/.openviking/ov.conf" 0) = Ret ().
Proof.
  split; [reflexivity|].
  exact (proj1 (config_display_never_fails
                  (configured_world (Ok (JDict [("embedding", JInt 5)])))
                  "/home/u/.openviking/ov.conf" 0)).
Defined.

Lemma info_parse_error_witness :
  run_trace (main demo_service (configured_world (Ok (JList [])))
               (Args "data" (Some Info)) 0)
  = info_header (configured_world (Ok (JList []))) "data"
    ++ [LoadJson "/home/u/.openviking/ov.conf" (Ok (JList []));
        Stdout (PyStr.nl +:+ "  Config parse error: "
                +:+ "'list' object has no attribute 'get'")]
    ++ [Stdout (PyStr.nl +:+ "  openviking installed (version unknown)")].
Proof.
  refine (proj1 (info_parse_error demo_service
                   (configured_world (Ok (JList []))) "data" 0
                   "'list' object has no attribute 'get'" _ _));
    reflexivity.
Defined.

Lemma info_shows_fields_witness :
  let dense := [("model", JStr "embed-3"); ("dimension", JInt 1024)] in
  let kvs := [("embedding", JDict [("dense", JDict dense)])] in
  let w := configured_world (Ok (JDict kvs)) in
  run_trace (main demo_service w (Args "data" (Some Info)) 0)
  = info_header w "data"
    ++ [LoadJson "/home/u/.openviking/ov.conf" (Ok (JDict kvs));
        Stdout (PyStr.nl +:+ "  Embedding model: embed-3");
        Stdout "  Embedding dim: 1024";
        Stdout "  VLM model: not set";
        Stdout "  API base: not set"]
    ++ [Stdout (PyStr.nl +:+ "  openviking installed (version unknown)")].
Proof.
  intros dense kvs w.
  refine (info_shows_fields demo_service w "data" 0 kvs
            [("dense", JDict dense)] dense [] _ _ _ _ _); reflexivity.
Defined.

Lemma add_reports_success_witness :
  run_trace (main demo_service ready_world
               (Args "data" (Some (Add "docs/a.md"))) 0)
  = factory_success ready_world "data"
    ++ [AddResource "docs/a.md"
          (Ok (AddResult (Some "success") None (Some "viking://resources/r")));
        Stdout "✅ Added: docs/a.md";
        Stdout "   URI: viking://resources/r";
        Stdout "⏳ Processing embeddings and summaries...";
        WaitProcessed (Ok ());
        Stdout "✅ Processing complete.";
        Close (Ok ())].
Proof.
  refine (add_reports_success demo_service ready_world "data" "docs/a.md"
            0 0 _ (Client "data") _ 1 1 _ _ _ _).
  - vm_compute. reflexivity.
  - reflexivity.
  - reflexivity.
  - reflexivity.
Defined.

Lemma add_reports_failure_witness :
  let run := main demo_service ready_world
               (Args "data" (Some (Add "docs/b.md"))) 0 in
  run_trace run
  = factory_success ready_world "data"
    ++ [AddResource "docs/b.md"
          (Ok (AddResult (Some "error") (Some ["unsupported"; "skipped"])
                 None));
        Stdout "❌ Failed: docs/b.md"]
    ++ [Stdout "   Error: unsupported"; Stdout "   Error: skipped"]
    ++ [Close (Ok ())]
  ∧ exit_status (run_outcome run) = 0%Z.
Proof.
  pose proof (add_reports_failure demo_service ready_world "data" "docs/b.md"
                0 0 (factory_success ready_world "data") (Client "data")
                (AddResult (Some "error") (Some ["unsupported"; "skipped"])
                   None) 1) as H.
  destruct H as (Ht & _ & Hs).
  - vm_compute. reflexivity.
  - reflexivity.
  - discriminate.
  - exact (conj Ht Hs).
Defined.

Lemma search_no_results_witness :
  let run := main demo_service ready_world
               (Args "data" (Some (Search "" 5))) 0 in
  run_trace run
  = factory_success ready_world "data"
    ++ [Find "" 5 (Ok []); Stdout "No results for ''"; Close (Ok ())]
  ∧ exit_status (run_outcome run) = 0%Z.
Proof.
  refine (search_no_results demo_service ready_world "data" "" 5 0 0
            (factory_success ready_world "data") (Client "data") 0 _ _).
  - vm_compute. reflexivity.
  - reflexivity.
Defined.

Lemma search_fetches_every_result_witness :
  fetched (run_trace (main demo_service ready_world
                        (Args "data" (Some (Search "notes" 5))) 0))
  = ["viking://resources/a"; "viking://resources/b"].
Proof.
  refine (search_fetches_every_result demo_service ready_world "data"
            "notes" 5 0 0 (factory_success ready_world "data")
            (Client "data")
            [Resource "viking://resources/a" "0.9134";
             Resource "viking://resources/b" "0.5000"] 0 _ _).
  - vm_compute. reflexivity.
  - reflexivity.
Defined.

Lemma shows_content_witness :
  run_trace (main demo_service ready_world
               (Args "data" (Some (ReadCmd "viking://resources/b"))) 0)
  = factory_success ready_world "data"
    ++ Read "viking://resources/b"
         (Ok (Some ("  first line" +:+ PyStr.nl +:+ "second line  ")))
       :: [Stdout ("  first line" +:+ PyStr.nl +:+ "second line  ")]
       ++ [Close (Ok ())].
Proof.
  refine (proj1 (shows_content demo_service ready_world "data"
                   (ReadCmd "viking://resources/b") 0 0
                   (factory_success ready_world "data") (Client "data")
                   _ _ 0 _ _)).
  - vm_compute. reflexivity.
  - apply (content_read demo_service "viking://resources/b" 0 0 " "%char).
    reflexivity.
Defined.

Lemma service_error_propagates_witness :
  let run := main demo_service ready_world
               (Args "data" (Some (ReadCmd "viking://resources/a"))) 0 in
  run_trace run
  = factory_success ready_world "data"
    ++ [Read "viking://resources/a" (Err (Exn "IOError" "gone"));
        Close (Ok ())]
  ∧ run_outcome run = Raise (Exn "IOError" "gone")
  ∧ exit_status (run_outcome run) = 1%Z.
Proof.
  refine (service_error_propagates demo_service ready_world "data"
            (ReadCmd "viking://resources/a") 0 0
            (factory_success ready_world "data") (Client "data")
            _ (Exn "IOError" "gone") 0 _ _).
  - vm_compute. reflexivity.
  - apply (raises_read demo_service "viking://resources/a" 0 0). reflexivity.
Defined.

Lemma add_dir_aborts_on_exception_witness :
  let w := configured_world (Ok (JDict [])) in
  let run := main demo_service w (Args "data" (Some (AddDir "docs" ""))) 0 in
  sorted (glob w (search_path "docs" ""))
    = ["docs/a.md"] ++ "docs/broken.md" :: ["docs/c.md"]
  ∧ run_trace run
    = [Glob "docs/**/*.md" ["docs/c.md"; "docs/broken.md"; "docs/a.md"];
       PathExists "/home/u/.openviking/ov.conf" true;
       Construct "data" (Ok ());
       Initialize (Ok ());
       AddResource "docs/a.md"
         (Ok (AddResult (Some "success") None (Some "viking://resources/r")));
       Stdout "  ✅ docs/a.md";
       AddResource "docs/broken.md" (Err (Exn "OSError" "unreadable"));
       Close (Ok ())]
  ∧ submitted (run_trace run) = ["docs/a.md"; "docs/broken.md"]
  ∧ exit_status (run_outcome run) = 1%Z.
Proof.
  intros w run.
  assert (Hfiles : sorted (glob w (search_path "docs" ""))
                   = ["docs/a.md"] ++ "docs/broken.md" :: ["docs/c.md"])
    by (vm_compute; reflexivity).
  split; [exact Hfiles|].
  refine (add_dir_aborts_on_exception demo_service w "data" "docs" "" 0 0
            (factory_success w "data") (Client "data")
            ["docs/a.md"] "docs/broken.md" ["docs/c.md"]
            [AddResult (Some "success") None (Some "viking://resources/r")]
            1 2 (Exn "OSError" "unreadable") Hfiles _ _ _).
  - vm_compute. reflexivity.
  - reflexivity.
  - reflexivity.
Defined.

Lemma preview_is_trimmed_witness :
  preview_of (nbsp +:+ " café" +:+ PyStr.nl +:+ "crème " +:+ ideographic_space)
    = "café crème"
  ∧ PyStr.space_char "c" = false
  ∧ PyStr.space_char "e" = false.
Proof.
  split; [reflexivity|]. split.
  - exact (proj1 (preview_is_trimmed
                    (nbsp +:+ " café" +:+ PyStr.nl +:+ "crème "
                     +:+ ideographic_space))
             "c" "afé crème" eq_refl).
  - exact (proj2 (preview_is_trimmed
                    (nbsp +:+ " café" +:+ PyStr.nl +:+ "crème "
                     +:+ ideographic_space))
             "café crèm" "e" eq_refl).
Defined.

Lemma preview_verbatim_witness :
  PyStr.len "café crème" = 10 ∧ preview_of "café crème" = "café crème".
Proof.
  split; [reflexivity|].
  apply preview_verbatim.
  - vm_compute. lia.
  - reflexivity.
  - intros h t H. exact (lstrip_no_leading "café crème" h t H).
  - intros t h H. exact (rstrip_no_trailing "café crème" t h H).
Defined.

Lemma blank_content_preview_witness :
  search_body blank_service (Client "data")
    (1, Resource "viking://resources/blank" "0.1000") ()
  = ((),
     [Stdout "  1. viking://resources/blank";
      Stdout "     Score: 0.1000";
      Read "viking://resources/blank" (Ok (Some blank_content));
      Stdout "     Preview: ...";
      Stdout ""],
     Ret ()).
Proof.
  refine (blank_content_preview blank_service (Client "data")
            (1, Resource "viking://resources/blank" "0.1000") () ()
            " "%char _ _ _); [reflexivity|].
  apply blank_white_space. reflexivity.
Defined.

Lemma stderr_only_when_fatal_witness :
  Stderr "Create ~/.openviking/ov.conf or set OPENVIKING_CONFIG_FILE"
    ∈ run_trace (main demo_service bare_world
                   (Args "data" (Some (Search "notes" 5))) 0)
  ∧ run_outcome (main demo_service bare_world
                   (Args "data" (Some (Search "notes" 5))) 0) = Exit 1.
Proof.
  assert (Hin : Stderr "Create ~/.openviking/ov.conf or set OPENVIKING_CONFIG_FILE"
                ∈ run_trace (main demo_service bare_world
                               (Args "data" (Some (Search "notes" 5))) 0)).
  { vm_compute. do 2 apply list_elem_of_further. apply list_elem_of_here. }
  split; [exact Hin|].
  exact (stderr_only_when_fatal demo_service bare_world "data"
           (Search "notes" 5) 0 _ Hin).
Defined.
